(** * notebooks/03_evaluate/comparison.ipynb: the algorithm-comparison sweep

    A shallow embedding of the code cells of the notebook: the scratch
    directory, the run configuration, the sweep over data sizes and
    algorithms that executes one external notebook per pair and appends one
    row to [df_results], and the final clean-up.

    The external world (papermill and the file system) is an explicit
    environment [env]; the kernel and the disk are an explicit [state]
    threaded through a state-and-exception monad [M]. *)

From stdpp Require Import gmap strings list.
From Stdlib Require Import Ascii QArith.

Open Scope string_scope.
Open Scope Z_scope.
Open Scope list_scope.

(** ** Python values and exceptions *)

(** Scalars that a recorded notebook value or a table cell can hold. A
    notebook that records a list or a dictionary is outside the model. *)
Inductive pyval :=
| np_nan
| PyFloat (x : Q)
| PyInt (n : Z)
| PyStr (s : string).

Inductive exn :=
| KeyError (key : string)
| NameError (name : string)
| ValueError (msg : string)
| AttributeError (attr : string)
| OSError (errno : Z)
| PapermillExecutionError
| RuntimeError (msg : string).

(** [errno.ENOENT] *)
Definition ENOENT : Z := 2.

Inductive result (A : Type) :=
| Ok (a : A)
| Raise (e : exn).
Arguments Ok {A} a.
Arguments Raise {A} e.

Definition rbind {A B} (r : result A) (f : A → result B) : result B :=
  match r with
  | Ok a => f a
  | Raise e => Raise e
  end.

Notation "'do' x <~ r ; f" := (rbind r (fun x => f))
  (at level 10, x name, r at level 100, f at level 200).

(** ** Names bound by the import cell

    import sys, os, shutil, tempfile, pandas as pd, pyplot as plt,
    numpy as np, seaborn as sns, papermill as pm, pyspark.
    A reference to any other module name is a [NameError]. *)
Definition imported : list string :=
  ["sys"; "os"; "shutil"; "tempfile"; "pd"; "plt"; "np"; "sns"; "pm"; "pyspark"].

Definition module (name : string) : result unit :=
  if bool_decide (name ∈ imported) then Ok tt else Raise (NameError name).

(** ** Strings: [str.lower] on ASCII text

    [lower] maps the letters A to Z to a to z and leaves every other
    character as it is. This is [str.lower] on ASCII text ([ascii_only]);
    [str.lower] also lowers capitals outside ASCII, which the model does
    not. The names the sweep reads are ASCII, and no name with a character
    outside ASCII lower-cases to one of them, so the reads of these names
    are modelled exactly whatever a notebook records. *)

Definition is_upper (c : ascii) : bool :=
  let n := nat_of_ascii c in (65 <=? n)%nat && (n <=? 90)%nat.

Definition lower_ascii (c : ascii) : ascii :=
  if is_upper c then ascii_of_nat (nat_of_ascii c + 32) else c.

Fixpoint lower (s : string) : string :=
  match s with
  | EmptyString => EmptyString
  | String c s' => String (lower_ascii c) (lower s')
  end.

(** Text all of whose characters are ASCII. *)
Fixpoint ascii_only (s : string) : bool :=
  match s with
  | EmptyString => true
  | String c s' => (nat_of_ascii c <? 128)%nat && ascii_only s'
  end.

(** Two characters are the same letter up to case: they are equal, or one
    is a capital letter and the other is 32 places further in the table,
    where the small letters are. *)
Definition case_variant_ascii (c d : ascii) : Prop :=
  c = d ∨ (is_upper c = true ∧ nat_of_ascii d = (nat_of_ascii c + 32)%nat)
        ∨ (is_upper d = true ∧ nat_of_ascii c = (nat_of_ascii d + 32)%nat).

(** Two names differ only in letter case. *)
Inductive case_variant : string → string → Prop :=
| cv_nil : case_variant EmptyString EmptyString
| cv_cons c d s t :
    case_variant_ascii c d → case_variant s t →
    case_variant (String c s) (String d t).

(** ** The record of an executed notebook

    [nb.dataframe] has one line per parameter or recorded value, with the
    columns name, value, type and filename. *)
Record nb_entry := {
  name : string;
  value : pyval;
  type : string;
  filename : string
}.

Abbreviation dataframe := (list nb_entry).

(** A one-line frame: column label and the cell under it, in column order;
    labels may repeat. *)
Abbreviation frame := (list (string * pyval)).

(** df_eval = nb.dataframe.transpose()
    df_eval = df_eval.rename(columns=df_eval.iloc[0]).drop(['name', 'type', 'filename'])
    Only the 'value' line is left, under the names as column labels. *)
Definition transpose_rename_drop (nb : dataframe) : frame :=
  (λ e, (name e, value e)) <$> nb.

(** df_eval.columns = [x.lower() for x in list(df_eval.columns)] *)
Definition lower_columns (df : frame) : frame :=
  (λ c, (lower c.1, c.2)) <$> df.

Definition arrange (nb : dataframe) : frame :=
  lower_columns (transpose_rename_drop nb).

(** The notebook recorded [v] under [field]: one entry of its record, and
    only one, has a name that differs from [field] at most in letter case,
    and the value of that entry is [v]. *)
Definition recorded (nb : dataframe) (field : string) (v : pyval) : Prop :=
  ∃ l1 e l2,
    nb = l1 ++ e :: l2 ∧ case_variant (name e) field ∧ value e = v ∧
    Forall (λ e', ¬ case_variant (name e') field) (l1 ++ l2).

(** df_eval[col].item(): a missing label is a [KeyError]; a label carried by
    one column selects a one-element series whose element [item] returns; a
    label carried by several columns selects a frame, which has no [item]. *)
Definition item (df : frame) (col : string) : result pyval :=
  match filter (λ c, c.1 = col) df with
  | [] => Raise (KeyError col)
  | [c] => Ok c.2
  | _ => Raise (AttributeError "item")
  end.

(** ** Result rows and the results table *)

(** One row of [df_results]: column label and cell, in column order. *)
Abbreviation row := (list (string * pyval)).

Definition cell (r : row) (col : string) : option pyval :=
  (λ p, p.2.2) <$> list_find (λ c, c.1 = col) r.

(** The columns other than the three that identify the run. *)
Definition metric_columns (r : row) : row :=
  filter (λ c, c.1 ∉ ["Data"; "Algo"; "K"]) r.

(** np.nan *)
Definition np_dot_nan : result pyval :=
  do _ <~ module "np"; Ok np_nan.

(** The first branch of the dispatch: all ten measurements are read. *)
Definition rating_row (k : Z) (data_size algorithm : string) (df_eval : frame)
  : result row :=
  do _ <~ module "pd";
  do v_map <~ item df_eval "map";
  do v_ndcg <~ item df_eval "ndcg";
  do v_precision <~ item df_eval "precision";
  do v_recall <~ item df_eval "recall";
  do v_rmse <~ item df_eval "rmse";
  do v_mae <~ item df_eval "mae";
  do v_rsquared <~ item df_eval "rsquared";
  do v_exp_var <~ item df_eval "exp_var";
  do v_train_time <~ item df_eval "train_time";
  do v_test_time <~ item df_eval "test_time";
  Ok [ ("Data", PyStr data_size);
       ("Algo", PyStr algorithm);
       ("K", PyInt k);
       ("MAP", v_map);
       ("nDCG@k", v_ndcg);
       ("Precision@k", v_precision);
       ("Recall@k", v_recall);
       ("RMSE", v_rmse);
       ("MAE", v_mae);
       ("R2", v_rsquared);
       ("Explained Variance", v_exp_var);
       ("Train time", v_train_time);
       ("Test time", v_test_time) ].

(** The second branch: the rating metrics are assigned np.nan. *)
Definition ranking_row (k : Z) (data_size algorithm : string) (df_eval : frame)
  : result row :=
  do _ <~ module "pd";
  do v_map <~ item df_eval "map";
  do v_ndcg <~ item df_eval "ndcg";
  do v_precision <~ item df_eval "precision";
  do v_recall <~ item df_eval "recall";
  do v_rmse <~ np_dot_nan;
  do v_mae <~ np_dot_nan;
  do v_rsquared <~ np_dot_nan;
  do v_exp_var <~ np_dot_nan;
  do v_train_time <~ item df_eval "train_time";
  do v_test_time <~ item df_eval "test_time";
  Ok [ ("Data", PyStr data_size);
       ("Algo", PyStr algorithm);
       ("K", PyInt k);
       ("MAP", v_map);
       ("nDCG@k", v_ndcg);
       ("Precision@k", v_precision);
       ("Recall@k", v_recall);
       ("RMSE", v_rmse);
       ("MAE", v_mae);
       ("R2", v_rsquared);
       ("Explained Variance", v_exp_var);
       ("Train time", v_train_time);
       ("Test time", v_test_time) ].

Definition rating_algorithms : list string := ["als"; "svd"; "fast"].
Definition ranking_algorithms : list string := ["sar"; "rbm"; "ncf"].

Definition not_recognized (algorithm : string) : string :=
  algorithm +:+ " is not a recognized algorithm".

(** if algorithm in ["als", "svd", "fast"]: ...
    elif algorithm in ["sar", "rbm", "ncf"]: ...
    else: raise ValueError(...) *)
Definition build_row (k : Z) (data_size algorithm : string) (df_eval : frame)
  : result row :=
  if bool_decide (algorithm ∈ rating_algorithms) then
    rating_row k data_size algorithm df_eval
  else if bool_decide (algorithm ∈ ranking_algorithms) then
    ranking_row k data_size algorithm df_eval
  else Raise (ValueError (not_recognized algorithm)).

(** The names each branch reads from the executed notebook, in reading
    order. *)
Definition ranking_fields : list string :=
  ["map"; "ndcg"; "precision"; "recall"; "train_time"; "test_time"].
Definition rating_fields : list string :=
  ["map"; "ndcg"; "precision"; "recall"; "rmse"; "mae"; "rsquared"; "exp_var";
   "train_time"; "test_time"].

Definition expected_fields (algorithm : string) : list string :=
  if bool_decide (algorithm ∈ rating_algorithms) then rating_fields
  else if bool_decide (algorithm ∈ ranking_algorithms) then ranking_fields
  else [].

(** ** Run configuration *)

Record config := {
  k : Z;
  data_sizes : list string;
  algorithms : list string;
  notebooks : gmap string string
}.

Definition configured : config := {|
  k := 10;
  data_sizes := ["100k"; "1m"];
  algorithms := ["als"; "sar"; "svd"; "fast"; "ncf"; "rbm"];
  notebooks :=
    <["als" := "../00_quick_start/als_movielens.ipynb"]>
   (<["sar" := "../00_quick_start/sar_movielens.ipynb"]>
   (<["svd" := "../02_model/surprise_svd_deep_dive.ipynb"]>
   (<["fast" := "../00_quick_start/fastai_movielens.ipynb"]>
   (<["ncf" := "../00_quick_start/ncf_movielens.ipynb"]>
   (<["rbm" := "../00_quick_start/rbm_movielens.ipynb"]> ∅)))))
|}.

(** ** Kernel and disk state *)

(** One papermill call: input notebook, TOP_K, MOVIELENS_DATA_SIZE. *)
Definition invocation : Type := string * Z * string.

Record state := {
  temp_exists : bool;               (* the directory temp_path *)
  output_ipynb : option dataframe;  (* output_path, inside temp_path *)
  df_results : list row;            (* the results table *)
  stdout : list (string * string);  (* print(algorithm, data_size) *)
  executed : list invocation        (* notebooks executed so far *)
}.

Definition initial : state := {|
  temp_exists := false; output_ipynb := None; df_results := [];
  stdout := []; executed := []
|}.

(** What executing an external notebook does: it runs to the end and leaves
    its record in the output file, or it fails, possibly after the output
    file was written; papermill reports a failure as a
    [PapermillExecutionError]. *)
Inductive exec_outcome :=
| Executed (out : dataframe)
| ExecFailed (out : option dataframe).

(** The environment: the outcome of each papermill call, which may depend on
    the calls made before, and the fault, if any, that the operating system
    reports when an existing directory is removed. *)
Record env := {
  run_notebook : list invocation → string → Z → string → exec_outcome;
  rmtree_fault : option exn
}.

(** ** The monad of cell code *)

Definition M (A : Type) : Type := state → result A * state.

Definition ret {A} (a : A) : M A := λ st, (Ok a, st).

Definition raise {A} (e : exn) : M A := λ st, (Raise e, st).

Definition bind {A B} (m : M A) (f : A → M B) : M B :=
  λ st, match m st with
        | (Ok a, st') => f a st'
        | (Raise e, st') => (Raise e, st')
        end.

Definition lift {A} (r : result A) : M A := λ st, (r, st).

(** try: m  except <handler> *)
Definition try_except {A} (m : M A) (handler : exn → M A) : M A :=
  λ st, match m st with
        | (Ok a, st') => (Ok a, st')
        | (Raise e, st') => handler e st'
        end.

Notation "'do' x <- m ; f" := (bind m (fun x => f))
  (at level 10, x name, m at level 100, f at level 200).

(** for x in xs: body(x) *)
Fixpoint for_each {A} (xs : list A) (body : A → M unit) : M unit :=
  match xs with
  | [] => ret tt
  | x :: xs' => do _ <- body x; for_each xs' body
  end.

(** ** The cells *)

Section Cells.

Variable E : env.

(** temp_path = tempfile.mkdtemp()
    output_path = os.path.join(temp_path, 'output.ipynb') *)
Definition cell_tempdir : M unit :=
  do _ <- lift (module "tempfile");
  do _ <- (λ st, (Ok tt, {| temp_exists := true; output_ipynb := None;
                            df_results := df_results st;
                            stdout := stdout st; executed := executed st |}));
  lift (module "os").

(** print(algorithm, data_size) *)
Definition print (algorithm data_size : string) : M unit :=
  λ st, (Ok tt, {| temp_exists := temp_exists st;
                   output_ipynb := output_ipynb st;
                   df_results := df_results st;
                   stdout := stdout st ++ [(algorithm, data_size)];
                   executed := executed st |}).

(** notebooks[algorithm] *)
Definition getitem (d : gmap string string) (key : string) : M string :=
  match d !! key with
  | Some v => ret v
  | None => raise (KeyError key)
  end.

(** pm.execute_notebook(path, output_path,
                        parameters=dict(TOP_K=top_k, MOVIELENS_DATA_SIZE=data_size)) *)
Definition execute_notebook (path : string) (top_k : Z) (data_size : string)
  : M unit :=
  λ st,
    let log := executed st ++ [(path, top_k, data_size)] in
    match run_notebook E (executed st) path top_k data_size with
    | Executed out =>
        (Ok tt, {| temp_exists := temp_exists st; output_ipynb := Some out;
                   df_results := df_results st; stdout := stdout st;
                   executed := log |})
    | ExecFailed out =>
        (Raise PapermillExecutionError,
         {| temp_exists := temp_exists st;
            output_ipynb := match out with
                            | Some o => Some o
                            | None => output_ipynb st
                            end;
            df_results := df_results st; stdout := stdout st;
            executed := log |})
    end.

(** pm.read_notebook(output_path).dataframe *)
Definition read_notebook : M dataframe :=
  λ st, match output_ipynb st with
        | Some nb => (Ok nb, st)
        | None => (Raise (OSError ENOENT), st)
        end.

(** df_results = pd.DataFrame() *)
Definition new_results : M unit :=
  do _ <- lift (module "pd");
  λ st, (Ok tt, {| temp_exists := temp_exists st;
                   output_ipynb := output_ipynb st;
                   df_results := [];
                   stdout := stdout st; executed := executed st |}).

(** df_results = df_results.append(df_result, ignore_index=True) *)
Definition append (df_result : row) : M unit :=
  λ st, (Ok tt, {| temp_exists := temp_exists st;
                   output_ipynb := output_ipynb st;
                   df_results := df_results st ++ [df_result];
                   stdout := stdout st; executed := executed st |}).

(** The body of the inner loop. *)
Definition iteration (cfg : config) (data_size algorithm : string) : M unit :=
  do _ <- print algorithm data_size;
  do _ <- lift (module "pm");
  do path <- getitem (notebooks cfg) algorithm;
  do _ <- execute_notebook path (k cfg) data_size;
  do _ <- lift (module "pm");
  do nb <- read_notebook;
  let df_eval := arrange nb in
  do df_result <- lift (build_row (k cfg) data_size algorithm df_eval);
  append df_result.

(** The sweep cell. *)
Definition cell_sweep (cfg : config) : M unit :=
  do _ <- new_results;
  for_each (data_sizes cfg) (λ data_size,
    for_each (algorithms cfg) (λ algorithm,
      iteration cfg data_size algorithm)).

(** shutil.rmtree(temp_path): a missing directory is ENOENT; an existing
    one is removed with everything in it unless the system reports a
    fault. A fault is modelled as striking before anything is removed; the
    directory itself is removed last, so it is still there after any
    fault. *)
Definition rmtree : M unit :=
  do _ <- lift (module "shutil");
  λ st,
    if temp_exists st then
      match rmtree_fault E with
      | None =>
          (Ok tt, {| temp_exists := false; output_ipynb := None;
                     df_results := df_results st; stdout := stdout st;
                     executed := executed st |})
      | Some e => (Raise e, st)
      end
    else (Raise (OSError ENOENT), st).

(** try:
        shutil.rmtree(temp_path)
    except OSError as exc:
        if exc.errno != errno.ENOENT:
            raise *)
Definition cell_cleanup : M unit :=
  try_except rmtree (λ exc,
    match exc with
    | OSError exc_errno =>
        do _ <- lift (module "errno");
        if bool_decide (exc_errno ≠ ENOENT) then raise exc else ret tt
    | _ => raise exc
    end).

(** Running the code cells top to bottom; the run stops at the first cell
    that raises. *)
Definition run_all (cells : list (M unit)) : M unit :=
  for_each cells (λ c, c).

Definition comparison (cfg : config) : M unit :=
  run_all [cell_tempdir; cell_sweep cfg; cell_cleanup].

(** The sweep as one loop over a list of (data size, algorithm) pairs. *)
Definition runs (cfg : config) (pairs : list (string * string)) : M unit :=
  for_each pairs (λ p, iteration cfg p.1 p.2).

End Cells.

(** The (data size, algorithm) pair a row was made for. *)
Definition row_key (r : row) : option pyval * option pyval :=
  (cell r "Data", cell r "Algo").

Definition pair_key (p : string * string) : option pyval * option pyval :=
  (Some (PyStr p.1), Some (PyStr p.2)).

(** ** Sample environments *)

Definition rec (n : string) (v : pyval) : nb_entry :=
  {| name := n; value := v; type := "record"; filename := "output.ipynb" |}.

Definition param (n : string) (v : pyval) : nb_entry :=
  {| name := n; value := v; type := "parameter"; filename := "output.ipynb" |}.

(** A record with every measurement, as a rating-capable notebook leaves. *)
Definition full_record (top_k : Z) (data_size : string) : dataframe :=
  [ param "TOP_K" (PyInt top_k);
    param "MOVIELENS_DATA_SIZE" (PyStr data_size);
    rec "map" (PyFloat (105815 # 1000000));
    rec "ndcg" (PyFloat (373197 # 1000000));
    rec "precision" (PyFloat (326617 # 1000000));
    rec "recall" (PyFloat (175957 # 1000000));
    rec "rmse" (PyFloat (963617 # 1000000));
    rec "mae" (PyFloat (750761 # 1000000));
    rec "rsquared" (PyFloat (261133 # 1000000));
    rec "exp_var" (PyFloat (267190 # 1000000));
    rec "train_time" (PyFloat (3465817 # 1000000));
    rec "test_time" (PyFloat (11410906 # 1000000)) ].

(** Every notebook runs to the end and records everything. *)
Definition env_ok : env := {|
  run_notebook := λ _ _ top_k data_size, Executed (full_record top_k data_size);
  rmtree_fault := None
|}.

(** A record as the notebooks leave it: the two parameters, then the
    measurements, some under names with capitals, each with its own value. *)
Definition mixed_record (top_k : Z) (data_size : string) : dataframe :=
  [ param "TOP_K" (PyInt top_k);
    param "MOVIELENS_DATA_SIZE" (PyStr data_size);
    rec "map" (PyFloat (105815 # 1000000));
    rec "NDCG" (PyFloat (373197 # 1000000));
    rec "Precision" (PyFloat (326617 # 1000000));
    rec "recall" (PyFloat (175957 # 1000000));
    rec "RMSE" (PyFloat (912115 # 1000000));
    rec "mae" (PyFloat (723051 # 1000000));
    rec "Rsquared" (PyFloat (356302 # 1000000));
    rec "exp_var" (PyFloat (357081 # 1000000));
    rec "Train_Time" (PyFloat (842583 # 1000000));
    rec "test_time" (PyFloat (47807 # 1000000)) ].

(** Every notebook runs to the end and leaves [mixed_record]. *)
Definition env_mixed : env := {|
  run_notebook := λ _ _ top_k data_size, Executed (mixed_record top_k data_size);
  rmtree_fault := None
|}.

(** Every notebook fails before writing its output. *)
Definition env_failing : env := {|
  run_notebook := λ _ _ _ _, ExecFailed None;
  rmtree_fault := None
|}.

(** A record of the ranking metrics only, under names with capitals, and the
    same record under the expected names. *)
Definition upper_record : dataframe :=
  [ rec "MAP" (PyFloat (1 # 10)); rec "NDCG" (PyFloat (2 # 10));
    rec "Precision" (PyFloat (3 # 10)); rec "Recall" (PyFloat (4 # 10));
    rec "Train_Time" (PyFloat (5 # 1)); rec "Test_Time" (PyFloat (6 # 1)) ].

Definition lower_record : dataframe :=
  [ rec "map" (PyFloat (1 # 10)); rec "ndcg" (PyFloat (2 # 10));
    rec "precision" (PyFloat (3 # 10)); rec "recall" (PyFloat (4 # 10));
    rec "train_time" (PyFloat (5 # 1)); rec "test_time" (PyFloat (6 # 1)) ].

(** Every notebook leaves [upper_record]. *)
Definition env_upper : env := {|
  run_notebook := λ _ _ _ _, Executed upper_record;
  rmtree_fault := None
|}.

(** An algorithm that has a notebook but belongs to neither family. *)
Definition cfg_knn : config := {|
  k := 10;
  data_sizes := ["100k"];
  algorithms := ["knn"];
  notebooks := <["knn" := "knn.ipynb"]> ∅
|}.

(** An algorithm that has no notebook. *)
Definition cfg_unmapped : config := {|
  k := 10;
  data_sizes := ["100k"];
  algorithms := ["knn"];
  notebooks := ∅
|}.

(** Two records list the same values in the same order under names that
    differ only in letter case. *)
Definition same_up_to_case (nb nb' : dataframe) : Prop :=
  Forall2 (λ e e', case_variant (name e) (name e') ∧ value e = value e') nb nb'.

(** A run for which everything succeeds, whatever was executed before: the
    algorithm has a notebook, the notebook runs to the end, and a row can be
    built from its record. *)
Definition run_succeeds (E : env) (cfg : config) (data_size algorithm : string)
  : Prop :=
  ∀ log, ∃ path nb r,
    notebooks cfg !! algorithm = Some path ∧
    run_notebook E log path (k cfg) data_size = Executed nb ∧
    build_row (k cfg) data_size algorithm (arrange nb) = Ok r.

(** ** Vocabulary for the properties of the table and of the trace *)

(** The labels of the columns of a result row, in order. *)
Definition columns : list string :=
  ["Data"; "Algo"; "K"; "MAP"; "nDCG@k"; "Precision@k"; "Recall@k";
   "RMSE"; "MAE"; "R2"; "Explained Variance"; "Train time"; "Test time"].

(** The line printed when the run of a pair starts. *)
Definition printed (p : string * string) : string * string := (p.2, p.1).

(** The papermill call made for a pair: the notebook mapped to the
    algorithm, with TOP_K = k and MOVIELENS_DATA_SIZE = the data size. *)
Definition call_for (cfg : config) (p : string * string) (c : invocation)
  : Prop :=
  notebooks cfg !! p.2 = Some c.1.1 ∧ c.1.2 = k cfg ∧ c.2 = p.1.

(** What every row of the table looks like. *)
Definition row_well_formed (cfg : config) (r : row) : Prop :=
  r.*1 = columns ∧
  cell r "K" = Some (PyInt (k cfg)) ∧
  ∃ data_size algorithm,
    data_size ∈ data_sizes cfg ∧ algorithm ∈ algorithms cfg ∧
    (algorithm ∈ rating_algorithms ∨ algorithm ∈ ranking_algorithms) ∧
    cell r "Data" = Some (PyStr data_size) ∧
    cell r "Algo" = Some (PyStr algorithm) ∧
    (algorithm ∈ ranking_algorithms →
     cell r "RMSE" = Some np_nan ∧ cell r "MAE" = Some np_nan ∧
     cell r "R2" = Some np_nan ∧ cell r "Explained Variance" = Some np_nan).

(** A record in which map is recorded twice, once with capitals. *)
Definition clashing_record : dataframe :=
  rec "MAP" (PyFloat (9 # 10)) :: lower_record.

(** The operating system refuses the removal (EACCES). *)
Definition env_denied : env := {|
  run_notebook := λ _ _ top_k data_size, Executed (full_record top_k data_size);
  rmtree_fault := Some (OSError 13)
|}.

(** ** Proof automation *)

(** Case analysis on membership in a list written out in full. *)
Ltac in_literal H :=
  repeat (apply elem_of_cons in H as [->|H]); [..|by apply elem_of_nil in H].

(** One read of a column in a row constructor: either it returns a value,
    or the constructor raises what the read raises. *)
Ltac read_column :=
  match goal with
  | |- context [item ?df ?c] =>
      let v := fresh "v" in let e := fresh "e" in let H := fresh "Hread" in
      destruct (item df c) as [v|e] eqn:H; cbn;
      [| exists c; split; [solve [repeat constructor] | done] ]
  end.

(** Two given characters are the same letter up to case. *)
Ltac same_letter :=
  first [ left; reflexivity
        | right; left; split; reflexivity
        | right; right; split; reflexivity ].

(** A given name differs at most in letter case from another given one. *)
Ltac same_name :=
  solve [repeat first [apply cv_nil | apply cv_cons; [same_letter|]]].

(** A given name differs at most in letter case from one of the names read
    for the ranking metrics and the timings. *)
Ltac variant_of_read :=
  first [ exists "map"; split; [solve [repeat constructor] | same_name]
        | exists "ndcg"; split; [solve [repeat constructor] | same_name]
        | exists "precision"; split; [solve [repeat constructor] | same_name]
        | exists "recall"; split; [solve [repeat constructor] | same_name]
        | exists "train_time"; split; [solve [repeat constructor] | same_name]
        | exists "test_time"; split; [solve [repeat constructor] | same_name] ].

(** ** Basic facts *)

Lemma module_pm : module "pm" = Ok tt.
Proof. reflexivity. Qed.

Lemma module_pd : module "pd" = Ok tt.
Proof. reflexivity. Qed.

Lemma module_np : module "np" = Ok tt.
Proof. reflexivity. Qed.

Lemma module_shutil : module "shutil" = Ok tt.
Proof. reflexivity. Qed.

Lemma module_errno : module "errno" = Raise (NameError "errno").
Proof. reflexivity. Qed.

(** One equation for the loop body: what it returns and the state it leaves,
    by cases on the dictionary lookup, on the outcome of the execution and on
    the construction of the row. *)
Lemma iteration_eq E cfg data_size algorithm st :
  iteration E cfg data_size algorithm st =
  let st0 := (print algorithm data_size st).2 in
  match notebooks cfg !! algorithm with
  | None => (Raise (KeyError algorithm), st0)
  | Some path =>
      let st1 := (execute_notebook E path (k cfg) data_size st0).2 in
      match run_notebook E (executed st) path (k cfg) data_size with
      | ExecFailed _ => (Raise PapermillExecutionError, st1)
      | Executed nb =>
          match build_row (k cfg) data_size algorithm (arrange nb) with
          | Ok r => (Ok tt, (append r st1).2)
          | Raise e => (Raise e, st1)
          end
      end
  end.
Proof.
  unfold iteration, bind, lift, getitem. rewrite module_pm. cbn.
  destruct (notebooks cfg !! algorithm) as [path|]; cbn; [|reflexivity].
  unfold execute_notebook. cbn.
  destruct (run_notebook E (executed st) path (k cfg) data_size) as [nb|out];
    cbn; [|reflexivity].
  destruct (build_row (k cfg) data_size algorithm (arrange nb)); reflexivity.
Qed.

(** ** Reading a column *)

Lemma item_raise df col e :
  item df col = Raise e →
  (e = KeyError col ∧ col ∉ df.*1) ∨ e = AttributeError "item".
Proof.
  unfold item. destruct (filter _ df) as [|c [|c' rest]] eqn:Hf; intros H;
    inversion H; subst; [left|by right].
  split; [done|]. intros Hin.
  apply list_elem_of_fmap in Hin as ([l v] & -> & Hin).
  by eapply (filter_nil_not_elem_of _ _ (l, v)) in Hf.
Qed.

Lemma item_missing df col : col ∉ df.*1 → item df col = Raise (KeyError col).
Proof.
  intros Hnot. unfold item.
  destruct (filter _ df) as [|c rest] eqn:Hf; [done|].
  exfalso. apply Hnot.
  assert (Hc : c ∈ c :: rest) by left. rewrite <- Hf in Hc.
  apply list_elem_of_filter in Hc as [<- Hc].
  by apply list_elem_of_fmap_2.
Qed.

Lemma filter_label_nil (df : frame) col :
  col ∉ df.*1 → filter (λ c : string * pyval, c.1 = col) df = [].
Proof.
  induction df as [|[l v] df IH]; [done|]. intros Hnot.
  rewrite filter_cons_False.
  - apply IH. intros Hin. apply Hnot. rewrite fmap_cons. by right.
  - cbn. intros ->. apply Hnot. rewrite fmap_cons. left.
Qed.

Lemma filter_label_singleton (df : frame) col c :
  filter (λ c : string * pyval, c.1 = col) df = [c] →
  ∃ l1 l2, df = l1 ++ c :: l2 ∧ c.1 = col ∧ (col ∉ l1.*1) ∧ (col ∉ l2.*1).
Proof.
  induction df as [|[l v] df IH]; [done|].
  destruct (decide (l = col)) as [->|Hne].
  - rewrite filter_cons_True by done. intros [= <- Hnil].
    exists [], df. split; [done|]. split; [done|]. split; [apply not_elem_of_nil|].
    intros Hin. apply list_elem_of_fmap in Hin as ([l' v'] & -> & Hin).
    by eapply (filter_nil_not_elem_of _ _ (l', v')) in Hnil.
  - rewrite filter_cons_False by done. intros Hf.
    destruct (IH Hf) as (l1 & l2 & -> & Hc & H1 & H2).
    exists ((l, v) :: l1), l2. split; [done|]. split; [done|]. split; [|done].
    cbn. intros [?|?]%elem_of_cons; [congruence|done].
Qed.

(** A label carried by two columns cannot be read. *)
Lemma item_duplicate (df : frame) (col : string) (l1 l2 l3 : frame)
    (v w : pyval) :
  df = l1 ++ (col, v) :: l2 ++ (col, w) :: l3 →
  item df col = Raise (AttributeError "item").
Proof.
  intros ->. unfold item.
  rewrite filter_app, filter_cons_True, filter_app, filter_cons_True by done.
  by destruct (filter _ l1) as [|? [|? ?]], (filter _ l2).
Qed.

(** ** The two row constructors *)

Lemma rating_row_spec top_k data_size algorithm df :
  match rating_row top_k data_size algorithm df with
  | Ok r =>
      ∃ v_map v_ndcg v_precision v_recall v_rmse v_mae v_rsquared v_exp_var
        v_train_time v_test_time,
        item df "map" = Ok v_map ∧ item df "ndcg" = Ok v_ndcg ∧
        item df "precision" = Ok v_precision ∧ item df "recall" = Ok v_recall ∧
        item df "rmse" = Ok v_rmse ∧ item df "mae" = Ok v_mae ∧
        item df "rsquared" = Ok v_rsquared ∧ item df "exp_var" = Ok v_exp_var ∧
        item df "train_time" = Ok v_train_time ∧
        item df "test_time" = Ok v_test_time ∧
        r = [ ("Data", PyStr data_size); ("Algo", PyStr algorithm);
              ("K", PyInt top_k);
              ("MAP", v_map); ("nDCG@k", v_ndcg);
              ("Precision@k", v_precision); ("Recall@k", v_recall);
              ("RMSE", v_rmse); ("MAE", v_mae); ("R2", v_rsquared);
              ("Explained Variance", v_exp_var);
              ("Train time", v_train_time); ("Test time", v_test_time) ]
  | Raise e => ∃ field, field ∈ rating_fields ∧ item df field = Raise e
  end.
Proof.
  unfold rating_row. rewrite module_pd. cbn. unfold rating_fields.
  do 10 read_column.
  repeat eexists; eauto.
Qed.

Lemma ranking_row_spec top_k data_size algorithm df :
  match ranking_row top_k data_size algorithm df with
  | Ok r =>
      ∃ v_map v_ndcg v_precision v_recall v_train_time v_test_time,
        item df "map" = Ok v_map ∧ item df "ndcg" = Ok v_ndcg ∧
        item df "precision" = Ok v_precision ∧ item df "recall" = Ok v_recall ∧
        item df "train_time" = Ok v_train_time ∧
        item df "test_time" = Ok v_test_time ∧
        r = [ ("Data", PyStr data_size); ("Algo", PyStr algorithm);
              ("K", PyInt top_k);
              ("MAP", v_map); ("nDCG@k", v_ndcg);
              ("Precision@k", v_precision); ("Recall@k", v_recall);
              ("RMSE", np_nan); ("MAE", np_nan); ("R2", np_nan);
              ("Explained Variance", np_nan);
              ("Train time", v_train_time); ("Test time", v_test_time) ]
  | Raise e => ∃ field, field ∈ ranking_fields ∧ item df field = Raise e
  end.
Proof.
  unfold ranking_row, np_dot_nan. rewrite module_pd, module_np. cbn.
  unfold ranking_fields.
  do 6 read_column.
  repeat eexists; eauto.
Qed.

(** What [build_row] returns, by family. *)
Lemma build_row_rating top_k data_size algorithm df :
  algorithm ∈ rating_algorithms →
  build_row top_k data_size algorithm df =
  rating_row top_k data_size algorithm df.
Proof. intros H. unfold build_row. by rewrite bool_decide_eq_true_2. Qed.

Lemma build_row_ranking top_k data_size algorithm df :
  algorithm ∈ ranking_algorithms →
  build_row top_k data_size algorithm df =
  ranking_row top_k data_size algorithm df.
Proof.
  intros H. unfold build_row.
  rewrite bool_decide_eq_false_2, bool_decide_eq_true_2; [done..|].
  unfold ranking_algorithms in H. in_literal H; compute_done.
Qed.

Lemma build_row_unrecognized top_k data_size algorithm df :
  algorithm ∉ rating_algorithms → algorithm ∉ ranking_algorithms →
  build_row top_k data_size algorithm df =
  Raise (ValueError (not_recognized algorithm)).
Proof.
  intros H1 H2. unfold build_row. by rewrite !bool_decide_eq_false_2.
Qed.

(** A row that was built names its run in its first two columns. *)
Lemma build_row_key top_k data_size algorithm df r :
  build_row top_k data_size algorithm df = Ok r →
  row_key r = pair_key (data_size, algorithm) ∧ length r = 13%nat.
Proof.
  unfold build_row. repeat case_bool_decide; [| |done].
  - pose proof (rating_row_spec top_k data_size algorithm df) as Hs.
    intros Hr. rewrite Hr in Hs.
    destruct Hs as (?&?&?&?&?&?&?&?&?&?&_&_&_&_&_&_&_&_&_&_&->). done.
  - pose proof (ranking_row_spec top_k data_size algorithm df) as Hs.
    intros Hr. rewrite Hr in Hs.
    destruct Hs as (?&?&?&?&?&?&_&_&_&_&_&_&->). done.
Qed.

(** An error of [build_row] for a recognized algorithm comes from reading
    one of the fields its family expects. *)
Lemma build_row_raise top_k data_size algorithm df e :
  build_row top_k data_size algorithm df = Raise e →
  (∃ field, field ∈ expected_fields algorithm ∧ item df field = Raise e) ∨
  (e = ValueError (not_recognized algorithm) ∧
   (algorithm ∉ rating_algorithms) ∧ (algorithm ∉ ranking_algorithms)).
Proof.
  unfold build_row, expected_fields. repeat case_bool_decide.
  - pose proof (rating_row_spec top_k data_size algorithm df) as Hs.
    intros Hr. rewrite Hr in Hs. by left.
  - pose proof (ranking_row_spec top_k data_size algorithm df) as Hs.
    intros Hr. rewrite Hr in Hs. by left.
  - intros [= <-]. by right.
Qed.

(** When an expected field is missing the row is not built. *)
Lemma build_row_missing top_k data_size algorithm df field :
  field ∈ expected_fields algorithm → field ∉ df.*1 →
  ∃ e, build_row top_k data_size algorithm df = Raise e ∧
       ((∃ f, e = KeyError f ∧ f ∈ expected_fields algorithm ∧ f ∉ df.*1)
        ∨ e = AttributeError "item").
Proof.
  intros Hexp Hmiss.
  destruct (build_row top_k data_size algorithm df) as [r|e] eqn:Hb.
  - exfalso. apply item_missing in Hmiss.
    revert Hexp Hb. unfold expected_fields, build_row.
    repeat case_bool_decide; [| |set_solver]; intros Hexp Hb.
    + pose proof (rating_row_spec top_k data_size algorithm df) as Hs.
      rewrite Hb in Hs.
      destruct Hs as (?&?&?&?&?&?&?&?&?&?&?&?&?&?&?&?&?&?&?&?&_).
      unfold rating_fields in Hexp.
      in_literal Hexp; congruence.
    + pose proof (ranking_row_spec top_k data_size algorithm df) as Hs.
      rewrite Hb in Hs.
      destruct Hs as (?&?&?&?&?&?&?&?&?&?&?&?&_).
      unfold ranking_fields in Hexp.
      in_literal Hexp; congruence.
  - exists e. split; [done|].
    apply build_row_raise in Hb as [(f & Hf & Hi)|[-> [H1 H2]]].
    + apply item_raise in Hi as [[-> ?]| ->]; [left|by right]. by exists f.
    + exfalso. revert Hexp. unfold expected_fields.
      rewrite !bool_decide_eq_false_2 by done. set_solver.
Qed.

Lemma build_row_ok_reads top_k data_size algorithm df r field :
  build_row top_k data_size algorithm df = Ok r →
  field ∈ expected_fields algorithm → ∃ v, item df field = Ok v.
Proof.
  intros Hb Hexp.
  destruct (item df field) as [v|e] eqn:Hi; [by exists v|].
  exfalso. revert Hexp Hb. unfold expected_fields, build_row.
  repeat case_bool_decide; [| |done]; intros Hexp Hb.
  - pose proof (rating_row_spec top_k data_size algorithm df) as Hs.
    rewrite Hb in Hs.
    destruct Hs as (?&?&?&?&?&?&?&?&?&?&?&?&?&?&?&?&?&?&?&?&_).
    unfold rating_fields in Hexp. in_literal Hexp; congruence.
  - pose proof (ranking_row_spec top_k data_size algorithm df) as Hs.
    rewrite Hb in Hs.
    destruct Hs as (?&?&?&?&?&?&?&?&?&?&?&?&_).
    unfold ranking_fields in Hexp. in_literal Hexp; congruence.
Qed.

(** ** Loops *)

Lemma for_each_app {A} (xs ys : list A) (body : A → M unit) st :
  for_each (xs ++ ys) body st =
  match for_each xs body st with
  | (Ok _, st') => for_each ys body st'
  | (Raise e, st') => (Raise e, st')
  end.
Proof.
  revert st. induction xs as [|x xs IH]; intros st; [done|].
  cbn. unfold bind. destruct (body x st) as [[[]|e] st1]; [apply IH|done].
Qed.

Lemma for_each_map {A B} (f : A → B) (xs : list A) (body : B → M unit) st :
  for_each (map f xs) body st = for_each xs (λ x, body (f x)) st.
Proof.
  revert st. induction xs as [|x xs IH]; intros st; [done|].
  cbn. unfold bind. destruct (body (f x) st) as [[[]|e] st1]; [apply IH|done].
Qed.

(** Two nested loops are one loop over the pairs, outer index first. *)
Lemma nested_loops {A B} (xs : list A) (ys : list B) (body : A → B → M unit) st :
  for_each xs (λ x, for_each ys (λ y, body x y)) st =
  for_each (list_prod xs ys) (λ p, body p.1 p.2) st.
Proof.
  revert st. induction xs as [|x xs IH]; intros st; [done|].
  cbn [list_prod for_each]. rewrite for_each_app, for_each_map. unfold bind. cbn.
  destruct (for_each ys (λ y, body x y) st) as [[[]|e] st1]; [apply IH|done].
Qed.

Lemma cell_sweep_eq E cfg st :
  cell_sweep E cfg st =
  runs E cfg (list_prod (data_sizes cfg) (algorithms cfg)) (new_results st).2.
Proof.
  unfold cell_sweep, runs, bind. rewrite <- nested_loops.
  unfold new_results, bind, lift. by rewrite module_pd.
Qed.

Lemma new_results_eq st :
  new_results st =
  (Ok tt, {| temp_exists := temp_exists st; output_ipynb := output_ipynb st;
             df_results := []; stdout := stdout st; executed := executed st |}).
Proof. unfold new_results, bind, lift. by rewrite module_pd. Qed.

(** The loop body leaves the directory alone, and appends exactly one row,
    for its own pair, exactly when it returns normally. *)
Lemma iteration_inv E cfg data_size algorithm st res st' :
  iteration E cfg data_size algorithm st = (res, st') →
  temp_exists st' = temp_exists st ∧
  match res with
  | Ok _ => ∃ r, df_results st' = df_results st ++ [r] ∧
                 row_key r = pair_key (data_size, algorithm)
  | Raise _ => df_results st' = df_results st
  end.
Proof.
  rewrite iteration_eq. cbn.
  destruct (notebooks cfg !! algorithm) as [path|]; [|by intros [= <- <-]].
  unfold execute_notebook. cbn.
  destruct (run_notebook E (executed st) path (k cfg) data_size) as [nb|out];
    [|by intros [= <- <-]].
  destruct (build_row _ _ _ _) as [r|e] eqn:Hb; intros [= <- <-]; [|done].
  split; [done|]. exists r. split; [done|]. by apply build_row_key in Hb as [? _].
Qed.

Lemma runs_cons E cfg p pairs st :
  runs E cfg (p :: pairs) st =
  match iteration E cfg p.1 p.2 st with
  | (Ok _, st') => runs E cfg pairs st'
  | (Raise e, st') => (Raise e, st')
  end.
Proof. done. Qed.

(** A sweep that returns normally appended one row per pair, in order. *)
Lemma runs_ok_inv E cfg pairs st st' :
  runs E cfg pairs st = (Ok tt, st') →
  temp_exists st' = temp_exists st ∧
  ∃ rows, df_results st' = df_results st ++ rows ∧
          row_key <$> rows = pair_key <$> pairs.
Proof.
  revert st. induction pairs as [|p pairs IH]; intros st.
  - intros [= <-]. split; [done|]. exists []. by rewrite app_nil_r.
  - rewrite runs_cons.
    destruct (iteration E cfg p.1 p.2 st) as [[[]|e] st1] eqn:Hit; [|done].
    intros Hrest. apply iteration_inv in Hit as [Ht (r & Hr & Hk)].
    apply IH in Hrest as [Ht' (rows & Hrows & Hks)].
    split; [congruence|]. exists (r :: rows). split.
    + rewrite Hrows, Hr, <- app_assoc. done.
    + cbn. rewrite Hks, Hk. by destruct p.
Qed.

(** A sweep that raises stopped at the first pair whose run raised. *)
Lemma runs_raise_inv E cfg pairs st e st' :
  runs E cfg pairs st = (Raise e, st') →
  ∃ before p after st1,
    pairs = before ++ p :: after ∧
    runs E cfg before st = (Ok tt, st1) ∧
    iteration E cfg p.1 p.2 st1 = (Raise e, st').
Proof.
  revert st. induction pairs as [|p pairs IH]; intros st; [done|].
  rewrite runs_cons.
  destruct (iteration E cfg p.1 p.2 st) as [[[]|e1] st1] eqn:Hit.
  - intros Hrest. apply IH in Hrest as (before & q & after & st2 & -> & Hd & Hq).
    exists (p :: before), q, after, st2. split; [done|]. split; [|done].
    by rewrite runs_cons, Hit.
  - intros [= <- <-]. by exists [], p, pairs, st.
Qed.

(** Conversely, the sweep raises what the first failing run raises. *)
Lemma runs_reach E cfg before p after st st1 e st2 :
  runs E cfg before st = (Ok tt, st1) →
  iteration E cfg p.1 p.2 st1 = (Raise e, st2) →
  runs E cfg (before ++ p :: after) st = (Raise e, st2).
Proof.
  intros Hd Hp. unfold runs in *. rewrite for_each_app, Hd.
  cbn. unfold bind. by rewrite Hp.
Qed.

(** A run that returns normally looked up its notebook, executed it, built
    a row from its record and appended that row. *)
Lemma iteration_ok_inv E cfg data_size algorithm st st' :
  iteration E cfg data_size algorithm st = (Ok tt, st') →
  ∃ path nb r,
    notebooks cfg !! algorithm = Some path ∧
    run_notebook E (executed st) path (k cfg) data_size = Executed nb ∧
    build_row (k cfg) data_size algorithm (arrange nb) = Ok r ∧
    df_results st' = df_results st ++ [r] ∧
    output_ipynb st' = Some nb.
Proof.
  rewrite iteration_eq. cbn zeta.
  destruct (notebooks cfg !! algorithm) as [path|] eqn:Hnb; [|done].
  unfold execute_notebook. cbn.
  destruct (run_notebook E (executed st) path (k cfg) data_size) as [nb|] eqn:Hrun;
    [|done].
  destruct (build_row _ _ _ _) as [r|] eqn:Hb; [|done].
  intros [= <-]. by exists path, nb, r.
Qed.

(** ** Names up to letter case *)

Lemma lower_ascii_idemp c : lower_ascii (lower_ascii c) = lower_ascii c.
Proof. destruct c as [[] [] [] [] [] [] [] []]; reflexivity. Qed.

Lemma lower_ascii_upper c d :
  is_upper c = true → nat_of_ascii d = (nat_of_ascii c + 32)%nat →
  lower_ascii c = d ∧ lower_ascii d = d.
Proof.
  intros Hc Hd. unfold lower_ascii. rewrite Hc.
  rewrite <- Hd, ascii_nat_embedding. split; [done|].
  unfold is_upper in *. cbn zeta in *. rewrite Hd.
  apply andb_true_iff in Hc as [Hlo%Nat.leb_le Hhi%Nat.leb_le].
  assert (Hgt : (nat_of_ascii c + 32 <=? 90)%nat = false)
    by (apply Nat.leb_gt; lia).
  by rewrite Hgt, andb_false_r.
Qed.

Lemma case_variant_ascii_lower c d :
  case_variant_ascii c d → lower_ascii c = lower_ascii d.
Proof.
  intros [->|[[Hc Hd]|[Hd Hc]]]; [done| |].
  - destruct (lower_ascii_upper c d Hc Hd) as [-> ->]. done.
  - destruct (lower_ascii_upper d c Hd Hc) as [-> ->]. done.
Qed.

Lemma case_variant_lower s t : case_variant s t → lower s = lower t.
Proof.
  induction 1 as [|c d s t Hcd _ IH]; [done|].
  cbn. by rewrite IH, (case_variant_ascii_lower c d).
Qed.

Lemma lower_ascii_not_upper c : is_upper (lower_ascii c) = false.
Proof. destruct c as [[] [] [] [] [] [] [] []]; reflexivity. Qed.

Lemma lower_ascii_inj_upper c d :
  is_upper c = true → is_upper d = true →
  lower_ascii c = lower_ascii d → c = d.
Proof.
  unfold lower_ascii. intros Hc Hd. rewrite Hc, Hd.
  unfold is_upper in Hc, Hd. cbn zeta in Hc, Hd.
  apply andb_true_iff in Hc as [_ Hc%Nat.leb_le].
  apply andb_true_iff in Hd as [_ Hd%Nat.leb_le].
  intros Heq. apply (f_equal nat_of_ascii) in Heq.
  rewrite !nat_ascii_embedding in Heq by lia.
  rewrite <- (ascii_nat_embedding c), <- (ascii_nat_embedding d).
  f_equal. lia.
Qed.

Lemma lower_ascii_code c d :
  is_upper c = true → is_upper d = false →
  lower_ascii c = lower_ascii d →
  nat_of_ascii d = (nat_of_ascii c + 32)%nat.
Proof.
  unfold lower_ascii. intros Hc Hd. rewrite Hc, Hd. intros <-.
  unfold is_upper in Hc. cbn zeta in Hc.
  apply andb_true_iff in Hc as [_ Hc%Nat.leb_le].
  rewrite nat_ascii_embedding; lia.
Qed.

Lemma lower_ascii_case_variant c d :
  lower_ascii c = lower_ascii d → case_variant_ascii c d.
Proof.
  destruct (is_upper c) eqn:Hc, (is_upper d) eqn:Hd; intros Heq.
  - left. by apply lower_ascii_inj_upper.
  - right. left. split; [done|]. by apply lower_ascii_code.
  - right. right. split; [done|]. by apply lower_ascii_code.
  - left. revert Heq. unfold lower_ascii. by rewrite Hc, Hd.
Qed.

Lemma lower_case_variant s t : lower s = lower t → case_variant s t.
Proof.
  revert t. induction s as [|c s IH]; intros [|d t]; try done.
  - intros _. constructor.
  - cbn. intros [= Hcd Hst]. constructor; [|by apply IH].
    by apply lower_ascii_case_variant.
Qed.

Lemma lower_idemp s : lower (lower s) = lower s.
Proof.
  induction s as [|c s IH]; [done|]. cbn. by rewrite lower_ascii_idemp, IH.
Qed.

Lemma arrange_app (l1 l2 : dataframe) :
  arrange (l1 ++ l2) = arrange l1 ++ arrange l2.
Proof.
  unfold arrange, lower_columns, transpose_rename_drop. by rewrite !fmap_app.
Qed.

Lemma arrange_cons e (l : dataframe) :
  arrange (e :: l) = (lower (name e), value e) :: arrange l.
Proof. done. Qed.

Lemma arrange_eq (nb : dataframe) :
  arrange nb = (λ e, (lower (name e), value e)) <$> nb.
Proof.
  unfold arrange, lower_columns, transpose_rename_drop.
  by rewrite <- list_fmap_compose.
Qed.

Lemma not_recorded_label (l : dataframe) field :
  lower field = field →
  (field ∉ (arrange l).*1) ↔ Forall (λ e, ¬ case_variant (name e) field) l.
Proof.
  intros Hlow. rewrite Forall_forall, arrange_eq, <- list_fmap_compose. split.
  - intros Hnot e He Hcv. apply Hnot. apply list_elem_of_fmap. exists e.
    split; [|done]. cbn. apply case_variant_lower in Hcv. by rewrite Hcv.
  - intros Hall (e & Hf & He)%list_elem_of_fmap. apply (Hall e He).
    apply lower_case_variant. cbn in Hf. by rewrite Hlow, Hf.
Qed.

(** Reading a lower-case name from the arranged record returns [v] exactly
    when the notebook recorded [v] under that name up to letter case. *)
Lemma item_arrange_recorded (nb : dataframe) field v :
  lower field = field →
  item (arrange nb) field = Ok v ↔ recorded nb field v.
Proof.
  intros Hlow. split.
  - unfold item.
    destruct (filter _ (arrange nb)) as [|c [|c' more]] eqn:Hf; [done| |done].
    intros [= <-].
    apply filter_label_singleton in Hf as (k1 & k2 & Hsplit & Hc & H1 & H2).
    rewrite arrange_eq in Hsplit.
    apply fmap_app_inv in Hsplit as (l1 & l2' & -> & Hk & ->).
    symmetry in Hk. apply fmap_cons_inv in Hk as (e & l2 & -> & -> & ->).
    rewrite <- arrange_eq in H1, H2. cbn in Hc.
    exists l1, e, l2. split; [done|]. split.
    { apply lower_case_variant. by rewrite Hlow. }
    split; [done|]. apply Forall_app. split; by apply not_recorded_label.
  - intros (l1 & e & l2 & -> & Hcv & <- & Hall).
    apply Forall_app in Hall as [H1 H2].
    apply not_recorded_label in H1, H2; [|done..].
    apply case_variant_lower in Hcv. rewrite Hlow in Hcv.
    rewrite arrange_app, arrange_cons, Hcv. unfold item.
    rewrite filter_app, filter_cons_True by done.
    by rewrite (filter_label_nil (arrange l1)), (filter_label_nil (arrange l2)).
Qed.

(** ** The rows of the two families *)

(** C1. For every configured data size and every algorithm among sar, rbm
    and ncf, the row that the loop body appends has Data equal to the data
    size, Algo equal to the algorithm, K equal to 10, the four rating
    columns (RMSE, MAE, R2, Explained Variance) equal to not-a-number, and
    the four ranking columns and the two timing columns equal to the values
    that the notebook executed for that pair (with TOP_K 10 and that data
    size) recorded under map, ndcg, precision, recall, train_time and
    test_time. *)
Theorem C1_ranking_only_row (E : env) (data_size algorithm : string)
    (st st' : state) :
  data_size ∈ data_sizes configured →
  algorithm ∈ ["sar"; "rbm"; "ncf"] →
  iteration E configured data_size algorithm st = (Ok tt, st') →
  ∃ path nb v_map v_ndcg v_precision v_recall v_train_time v_test_time,
    notebooks configured !! algorithm = Some path ∧
    run_notebook E (executed st) path 10 data_size = Executed nb ∧
    recorded nb "map" v_map ∧
    recorded nb "ndcg" v_ndcg ∧
    recorded nb "precision" v_precision ∧
    recorded nb "recall" v_recall ∧
    recorded nb "train_time" v_train_time ∧
    recorded nb "test_time" v_test_time ∧
    df_results st' = df_results st ++
      [ [ ("Data", PyStr data_size); ("Algo", PyStr algorithm);
          ("K", PyInt 10);
          ("MAP", v_map); ("nDCG@k", v_ndcg);
          ("Precision@k", v_precision); ("Recall@k", v_recall);
          ("RMSE", np_nan); ("MAE", np_nan); ("R2", np_nan);
          ("Explained Variance", np_nan);
          ("Train time", v_train_time); ("Test time", v_test_time) ] ].
Proof.
  intros _ Halg Hit.
  apply iteration_ok_inv in Hit as (path & nb & r & Hnb & Hrun & Hb & Hdf & _).
  change (k configured) with 10 in *.
  rewrite build_row_ranking in Hb by done.
  pose proof (ranking_row_spec 10 data_size algorithm (arrange nb)) as Hs.
  rewrite Hb in Hs.
  destruct Hs as (v1 & v2 & v3 & v4 & v5 & v6 & H1 & H2 & H3 & H4 & H5 & H6 & ->).
  apply item_arrange_recorded in H1, H2, H3, H4, H5, H6; [|done..].
  by exists path, nb, v1, v2, v3, v4, v5, v6.
Qed.

Lemma C1_ranking_only_row_witness :
  "100k" ∈ data_sizes configured ∧
  "sar" ∈ ["sar"; "rbm"; "ncf"] ∧
  notebooks configured !! "sar" =
    Some "../00_quick_start/sar_movielens.ipynb" ∧
  run_notebook env_mixed (executed initial)
    "../00_quick_start/sar_movielens.ipynb" 10 "100k" =
    Executed (mixed_record 10 "100k") ∧
  recorded (mixed_record 10 "100k") "map" (PyFloat (105815 # 1000000)) ∧
  recorded (mixed_record 10 "100k") "ndcg" (PyFloat (373197 # 1000000)) ∧
  recorded (mixed_record 10 "100k") "precision" (PyFloat (326617 # 1000000)) ∧
  recorded (mixed_record 10 "100k") "recall" (PyFloat (175957 # 1000000)) ∧
  recorded (mixed_record 10 "100k") "train_time"
    (PyFloat (842583 # 1000000)) ∧
  recorded (mixed_record 10 "100k") "test_time" (PyFloat (47807 # 1000000)) ∧
  df_results (iteration env_mixed configured "100k" "sar" initial).2 =
    [ [ ("Data", PyStr "100k"); ("Algo", PyStr "sar"); ("K", PyInt 10);
        ("MAP", PyFloat (105815 # 1000000));
        ("nDCG@k", PyFloat (373197 # 1000000));
        ("Precision@k", PyFloat (326617 # 1000000));
        ("Recall@k", PyFloat (175957 # 1000000));
        ("RMSE", np_nan); ("MAE", np_nan); ("R2", np_nan);
        ("Explained Variance", np_nan);
        ("Train time", PyFloat (842583 # 1000000));
        ("Test time", PyFloat (47807 # 1000000)) ] ].
Proof.
  split; [compute_done|]. split; [compute_done|].
  destruct (C1_ranking_only_row env_mixed "100k" "sar" initial
              (iteration env_mixed configured "100k" "sar" initial).2)
    as (path & nb & v1 & v2 & v3 & v4 & v5 & v6 & Hnb & Hrun &
        H1 & H2 & H3 & H4 & H5 & H6 & Hdf);
    [compute_done | compute_done | vm_compute; reflexivity |].
  vm_compute in Hnb. injection Hnb as <-.
  cbn in Hrun. injection Hrun as <-.
  vm_compute in Hdf. injection Hdf as <- <- <- <- <- <-.
  repeat (split; [first [reflexivity | assumption]|]).
  vm_compute; reflexivity.
Defined.

(** C5, as stated, fails on the count: the row appended for als carries ten
    columns of measurements next to Data, Algo and K (thirteen columns in
    all), not twelve. *)
Lemma C5_twelve_fields_counterexample :
  ∃ r, df_results (iteration env_ok configured "100k" "als" initial).2 = [r] ∧
       length r = 13%nat ∧
       length (metric_columns r) = 10%nat ∧
       length (metric_columns r) ≠ 12%nat.
Proof.
  eexists. split; [vm_compute; reflexivity|].
  split; [reflexivity|]. split; [vm_compute; reflexivity|].
  vm_compute. lia.
Qed.

(** C5, amended. For every algorithm among als, svd and fast, the row that
    the loop body appends has all ten measurement columns (four ranking
    metrics, four rating metrics, two timings) equal to what the executed
    notebook recorded under map, ndcg, precision, recall, rmse, mae,
    rsquared, exp_var, train_time and test_time; none is replaced by
    not-a-number by the sweep. *)
Theorem C5_rating_row (E : env) (data_size algorithm : string)
    (st st' : state) :
  data_size ∈ data_sizes configured →
  algorithm ∈ ["als"; "svd"; "fast"] →
  iteration E configured data_size algorithm st = (Ok tt, st') →
  ∃ path nb v_map v_ndcg v_precision v_recall v_rmse v_mae v_rsquared
    v_exp_var v_train_time v_test_time,
    notebooks configured !! algorithm = Some path ∧
    run_notebook E (executed st) path 10 data_size = Executed nb ∧
    recorded nb "map" v_map ∧
    recorded nb "ndcg" v_ndcg ∧
    recorded nb "precision" v_precision ∧
    recorded nb "recall" v_recall ∧
    recorded nb "rmse" v_rmse ∧
    recorded nb "mae" v_mae ∧
    recorded nb "rsquared" v_rsquared ∧
    recorded nb "exp_var" v_exp_var ∧
    recorded nb "train_time" v_train_time ∧
    recorded nb "test_time" v_test_time ∧
    df_results st' = df_results st ++
      [ [ ("Data", PyStr data_size); ("Algo", PyStr algorithm);
          ("K", PyInt 10);
          ("MAP", v_map); ("nDCG@k", v_ndcg);
          ("Precision@k", v_precision); ("Recall@k", v_recall);
          ("RMSE", v_rmse); ("MAE", v_mae); ("R2", v_rsquared);
          ("Explained Variance", v_exp_var);
          ("Train time", v_train_time); ("Test time", v_test_time) ] ].
Proof.
  intros _ Halg Hit.
  apply iteration_ok_inv in Hit as (path & nb & r & Hnb & Hrun & Hb & Hdf & _).
  change (k configured) with 10 in *.
  rewrite build_row_rating in Hb by done.
  pose proof (rating_row_spec 10 data_size algorithm (arrange nb)) as Hs.
  rewrite Hb in Hs.
  destruct Hs as (v1 & v2 & v3 & v4 & v5 & v6 & v7 & v8 & v9 & v10 & Hs).
  destruct Hs as (H1 & H2 & H3 & H4 & H5 & H6 & H7 & H8 & H9 & H10 & ->).
  apply item_arrange_recorded in H1, H2, H3, H4, H5, H6, H7, H8, H9, H10;
    [|done..].
  by exists path, nb, v1, v2, v3, v4, v5, v6, v7, v8, v9, v10.
Qed.

Lemma C5_rating_row_witness :
  "1m" ∈ data_sizes configured ∧
  "fast" ∈ ["als"; "svd"; "fast"] ∧
  notebooks configured !! "fast" =
    Some "../00_quick_start/fastai_movielens.ipynb" ∧
  run_notebook env_mixed (executed initial)
    "../00_quick_start/fastai_movielens.ipynb" 10 "1m" =
    Executed (mixed_record 10 "1m") ∧
  recorded (mixed_record 10 "1m") "map" (PyFloat (105815 # 1000000)) ∧
  recorded (mixed_record 10 "1m") "ndcg" (PyFloat (373197 # 1000000)) ∧
  recorded (mixed_record 10 "1m") "precision" (PyFloat (326617 # 1000000)) ∧
  recorded (mixed_record 10 "1m") "recall" (PyFloat (175957 # 1000000)) ∧
  recorded (mixed_record 10 "1m") "rmse" (PyFloat (912115 # 1000000)) ∧
  recorded (mixed_record 10 "1m") "mae" (PyFloat (723051 # 1000000)) ∧
  recorded (mixed_record 10 "1m") "rsquared" (PyFloat (356302 # 1000000)) ∧
  recorded (mixed_record 10 "1m") "exp_var" (PyFloat (357081 # 1000000)) ∧
  recorded (mixed_record 10 "1m") "train_time" (PyFloat (842583 # 1000000)) ∧
  recorded (mixed_record 10 "1m") "test_time" (PyFloat (47807 # 1000000)) ∧
  df_results (iteration env_mixed configured "1m" "fast" initial).2 =
    [ [ ("Data", PyStr "1m"); ("Algo", PyStr "fast"); ("K", PyInt 10);
        ("MAP", PyFloat (105815 # 1000000));
        ("nDCG@k", PyFloat (373197 # 1000000));
        ("Precision@k", PyFloat (326617 # 1000000));
        ("Recall@k", PyFloat (175957 # 1000000));
        ("RMSE", PyFloat (912115 # 1000000));
        ("MAE", PyFloat (723051 # 1000000));
        ("R2", PyFloat (356302 # 1000000));
        ("Explained Variance", PyFloat (357081 # 1000000));
        ("Train time", PyFloat (842583 # 1000000));
        ("Test time", PyFloat (47807 # 1000000)) ] ].
Proof.
  split; [compute_done|]. split; [compute_done|].
  destruct (C5_rating_row env_mixed "1m" "fast" initial
              (iteration env_mixed configured "1m" "fast" initial).2)
    as (path & nb & v1 & v2 & v3 & v4 & v5 & v6 & v7 & v8 & v9 & v10 &
        Hnb & Hrun & H1 & H2 & H3 & H4 & H5 & H6 & H7 & H8 & H9 & H10 & Hdf);
    [compute_done | compute_done | vm_compute; reflexivity |].
  vm_compute in Hnb. injection Hnb as <-.
  cbn in Hrun. injection Hrun as <-.
  vm_compute in Hdf. injection Hdf as <- <- <- <- <- <- <- <- <- <-.
  repeat (split; [first [reflexivity | assumption]|]).
  vm_compute; reflexivity.
Defined.

(** ** The results table *)

(** When every run succeeds, so does the sweep. *)
Lemma iteration_succeeds E cfg data_size algorithm st :
  run_succeeds E cfg data_size algorithm →
  ∃ st', iteration E cfg data_size algorithm st = (Ok tt, st').
Proof.
  intros Hok. destruct (Hok (executed st)) as (path & nb & r & Hnb & Hrun & Hb).
  rewrite iteration_eq. cbn zeta. rewrite Hnb, Hrun, Hb. by eexists.
Qed.

Lemma runs_succeed E cfg pairs st :
  (∀ p, p ∈ pairs → run_succeeds E cfg p.1 p.2) →
  ∃ st', runs E cfg pairs st = (Ok tt, st').
Proof.
  revert st. induction pairs as [|p pairs IH]; intros st Hall; [by eexists|].
  rewrite runs_cons.
  destruct (iteration_succeeds E cfg p.1 p.2 st) as [st1 ->];
    [apply Hall; left|].
  apply IH. intros q Hq. apply Hall. by right.
Qed.

Lemma sweep_ok_row_count E cfg st st' :
  cell_sweep E cfg st = (Ok tt, st') →
  length (df_results st') =
    (length (data_sizes cfg) * length (algorithms cfg))%nat.
Proof.
  rewrite cell_sweep_eq, new_results_eq. cbn.
  intros (_ & rows & Hrows & Hkeys)%runs_ok_inv. cbn in Hrows.
  rewrite Hrows, <- (length_fmap row_key), Hkeys, length_fmap.
  apply length_prod.
Qed.

(** C6. When every notebook execution and every row construction succeeds,
    the sweep returns normally; and whenever the sweep returns normally the
    results table has as many rows as there are data sizes times algorithms,
    which is 2 × 6 = 12 for the configured lists. *)
Theorem C6_row_count (E : env) (cfg : config) (st : state) :
  ((∀ data_size algorithm,
      data_size ∈ data_sizes cfg → algorithm ∈ algorithms cfg →
      run_succeeds E cfg data_size algorithm) →
   ∃ st', cell_sweep E cfg st = (Ok tt, st')) ∧
  (∀ st', cell_sweep E cfg st = (Ok tt, st') →
     length (df_results st') =
       (length (data_sizes cfg) * length (algorithms cfg))%nat ∧
     (cfg = configured → length (df_results st') = 12%nat)).
Proof.
  split.
  - intros Hall. rewrite cell_sweep_eq. apply runs_succeed.
    intros [d a] Hin. apply list_elem_of_In, in_prod_iff in Hin as [Hd Ha].
    apply Hall; by apply list_elem_of_In.
  - intros st' Hsweep. apply sweep_ok_row_count in Hsweep.
    split; [done|]. intros ->. by rewrite Hsweep.
Qed.

Lemma env_ok_run_succeeds data_size algorithm :
  algorithm ∈ algorithms configured →
  run_succeeds env_ok configured data_size algorithm.
Proof.
  intros Ha log. cbn in Ha.
  in_literal Ha; eexists _, _, _;
    (split; [vm_compute; reflexivity|]); (split; [reflexivity|]);
    vm_compute; reflexivity.
Qed.

Lemma C6_row_count_witness :
  (∃ st', cell_sweep env_ok configured initial = (Ok tt, st')) ∧
  length (df_results (cell_sweep env_ok configured initial).2) =
    (length (data_sizes configured) * length (algorithms configured))%nat ∧
  length (df_results (cell_sweep env_ok configured initial).2) = 12%nat.
Proof.
  split.
  - apply (proj1 (C6_row_count env_ok configured initial)).
    intros d a _ Ha. by apply env_ok_run_succeeds.
  - assert (Hsweep : cell_sweep env_ok configured initial =
                      (Ok tt, (cell_sweep env_ok configured initial).2))
      by (vm_compute; reflexivity).
    destruct (proj2 (C6_row_count env_ok configured initial) _ Hsweep)
      as [H1 H2].
    split; [exact H1 | exact (H2 eq_refl)].
Defined.

(** C7. The rows of the results table are in sweep order. Whatever the
    outcome, the table lists, in order, rows for an initial segment of the
    enumeration of the pairs with the data sizes in the outer loop and the
    algorithms in the inner loop; when the sweep returns normally the table
    matches the whole enumeration, and row i is the row of pair i. *)
Theorem C7_row_order (E : env) (cfg : config) (st : state)
    (res : result unit) (st' : state) :
  cell_sweep E cfg st = (res, st') →
  (row_key <$> df_results st') `prefix_of`
    (pair_key <$> list_prod (data_sizes cfg) (algorithms cfg)) ∧
  (res = Ok tt →
   row_key <$> df_results st' =
     pair_key <$> list_prod (data_sizes cfg) (algorithms cfg) ∧
   ∀ (i : nat) (r : row), df_results st' !! i = Some r →
     ∃ data_size algorithm,
       list_prod (data_sizes cfg) (algorithms cfg) !! i =
         Some (data_size, algorithm) ∧
       cell r "Data" = Some (PyStr data_size) ∧
       cell r "Algo" = Some (PyStr algorithm)).
Proof.
  rewrite cell_sweep_eq, new_results_eq. cbn. intros Hruns.
  assert (Hok : ∀ pairs st1,
    runs E cfg pairs (new_results st).2 = (Ok tt, st1) →
    row_key <$> df_results st1 = pair_key <$> pairs).
  { intros pairs st1. rewrite new_results_eq. cbn.
    intros (_ & rows & Hrows & Hkeys)%runs_ok_inv. cbn in Hrows. by subst. }
  rewrite new_results_eq in Hok. cbn in Hok.
  split.
  - destruct res as [[]|e].
    + by rewrite (Hok _ _ Hruns).
    + apply runs_raise_inv in Hruns as (before & p & after & st1 & Hp & Hd & Hit).
      apply iteration_inv in Hit as [_ Hdf]. cbn in Hdf.
      rewrite Hdf, (Hok _ _ Hd), Hp, fmap_app. by apply prefix_app_r.
  - intros ->. pose proof (Hok _ _ Hruns) as Hkeys. split; [done|].
    intros i r Hi.
    assert (Hk : (row_key <$> df_results st') !! i = Some (row_key r))
      by by rewrite list_lookup_fmap, Hi.
    rewrite Hkeys, list_lookup_fmap in Hk.
    destruct (list_prod _ _ !! i) as [[d a]|]; [|done].
    exists d, a. split; [done|]. by injection Hk.
Qed.

Lemma C7_row_order_witness :
  cell_sweep env_ok configured initial =
    (Ok tt, (cell_sweep env_ok configured initial).2) ∧
  df_results (cell_sweep env_ok configured initial).2 !! 7%nat =
    Some [ ("Data", PyStr "1m"); ("Algo", PyStr "sar"); ("K", PyInt 10);
           ("MAP", PyFloat (105815 # 1000000));
           ("nDCG@k", PyFloat (373197 # 1000000));
           ("Precision@k", PyFloat (326617 # 1000000));
           ("Recall@k", PyFloat (175957 # 1000000));
           ("RMSE", np_nan); ("MAE", np_nan); ("R2", np_nan);
           ("Explained Variance", np_nan);
           ("Train time", PyFloat (3465817 # 1000000));
           ("Test time", PyFloat (11410906 # 1000000)) ] ∧
  row_key <$> df_results (cell_sweep env_ok configured initial).2 =
    pair_key <$> list_prod (data_sizes configured) (algorithms configured).
Proof.
  split; [vm_compute; reflexivity|]. split; [vm_compute; reflexivity|].
  apply (C7_row_order env_ok configured initial (Ok tt)
           (cell_sweep env_ok configured initial).2);
    [vm_compute; reflexivity | reflexivity].
Defined.

(** ** Reading the record of an executed notebook *)

Lemma arrange_case_variant (nb nb' : dataframe) :
  same_up_to_case nb nb' → arrange nb = arrange nb'.
Proof.
  induction 1 as [|e e' nb nb' [Hn Hv] _ IH]; [done|].
  unfold arrange, lower_columns, transpose_rename_drop in *. cbn.
  by rewrite IH, Hv, (case_variant_lower _ _ Hn).
Qed.

(** C9, as stated, fails when two recorded names differ only in letter case
    from the same expected name. Every name of this record differs from a
    name the sweep reads at most in letter case, and map is there under its
    exact name, with a value that a read before the lower-casing returns
    (read by exact names, the record gives a row); after the lower-casing
    the read of map raises and no row is built, while the record without
    the second name gives a row. *)
Lemma C9_clash_counterexample :
  Forall (λ e, ∃ field, field ∈ ranking_fields ∧ case_variant (name e) field)
    clashing_record ∧
  item (transpose_rename_drop clashing_record) "map" = Ok (PyFloat (1 # 10)) ∧
  item (arrange clashing_record) "map" = Raise (AttributeError "item") ∧
  build_row 10 "100k" "sar" (arrange clashing_record) =
    Raise (AttributeError "item") ∧
  (∃ r, build_row 10 "100k" "sar" (transpose_rename_drop clashing_record) =
          Ok r) ∧
  (∃ r, build_row 10 "100k" "sar" (arrange lower_record) = Ok r).
Proof.
  split.
  { unfold clashing_record, lower_record.
    repeat (constructor; [variant_of_read|]). constructor. }
  split; [vm_compute; reflexivity|]. split; [vm_compute; reflexivity|].
  split; [vm_compute; reflexivity|].
  split; eexists; vm_compute; reflexivity.
Qed.

(** C9, amended. Reading the recorded values is case-insensitive as long as
    the names do not clash. When the notebook records each name that the
    family of the algorithm reads under one name, and only one, up to letter
    case, the row is built and holds the values recorded under these names,
    whatever their letter case; and two records that list the same values
    under names differing only in letter case give the same result. When two
    recorded names differ only in letter case from one name that is read, no
    row is built. *)
Theorem C9_case_insensitive (top_k : Z) (data_size algorithm : string)
    (nb nb' : dataframe) :
  (same_up_to_case nb nb' →
   build_row top_k data_size algorithm (arrange nb) =
   build_row top_k data_size algorithm (arrange nb')) ∧
  (algorithm ∈ ranking_algorithms →
   ∀ v_map v_ndcg v_precision v_recall v_train_time v_test_time,
     recorded nb "map" v_map → recorded nb "ndcg" v_ndcg →
     recorded nb "precision" v_precision → recorded nb "recall" v_recall →
     recorded nb "train_time" v_train_time →
     recorded nb "test_time" v_test_time →
     build_row top_k data_size algorithm (arrange nb) =
       Ok [ ("Data", PyStr data_size); ("Algo", PyStr algorithm);
            ("K", PyInt top_k);
            ("MAP", v_map); ("nDCG@k", v_ndcg);
            ("Precision@k", v_precision); ("Recall@k", v_recall);
            ("RMSE", np_nan); ("MAE", np_nan); ("R2", np_nan);
            ("Explained Variance", np_nan);
            ("Train time", v_train_time); ("Test time", v_test_time) ]) ∧
  (algorithm ∈ rating_algorithms →
   ∀ v_map v_ndcg v_precision v_recall v_rmse v_mae v_rsquared v_exp_var
     v_train_time v_test_time,
     recorded nb "map" v_map → recorded nb "ndcg" v_ndcg →
     recorded nb "precision" v_precision → recorded nb "recall" v_recall →
     recorded nb "rmse" v_rmse → recorded nb "mae" v_mae →
     recorded nb "rsquared" v_rsquared → recorded nb "exp_var" v_exp_var →
     recorded nb "train_time" v_train_time →
     recorded nb "test_time" v_test_time →
     build_row top_k data_size algorithm (arrange nb) =
       Ok [ ("Data", PyStr data_size); ("Algo", PyStr algorithm);
            ("K", PyInt top_k);
            ("MAP", v_map); ("nDCG@k", v_ndcg);
            ("Precision@k", v_precision); ("Recall@k", v_recall);
            ("RMSE", v_rmse); ("MAE", v_mae); ("R2", v_rsquared);
            ("Explained Variance", v_exp_var);
            ("Train time", v_train_time); ("Test time", v_test_time) ]) ∧
  (∀ l1 e1 l2 e2 l3 field,
     nb = l1 ++ e1 :: l2 ++ e2 :: l3 →
     case_variant (name e1) field → case_variant (name e2) field →
     field ∈ expected_fields algorithm →
     ∃ e, build_row top_k data_size algorithm (arrange nb) = Raise e).
Proof.
  split; [intros H; by rewrite (arrange_case_variant nb nb')|]. split; [|split].
  - intros Halg v1 v2 v3 v4 v5 v6 H1 H2 H3 H4 H5 H6.
    apply item_arrange_recorded in H1, H2, H3, H4, H5, H6; [|done..].
    rewrite build_row_ranking by done. unfold ranking_row, np_dot_nan.
    by rewrite module_pd, module_np, H1, H2, H3, H4, H5, H6.
  - intros Halg v1 v2 v3 v4 v5 v6 v7 v8 v9 v10 H1 H2 H3 H4 H5 H6 H7 H8 H9 H10.
    apply item_arrange_recorded in H1, H2, H3, H4, H5, H6, H7, H8, H9, H10;
      [|done..].
    rewrite build_row_rating by done. unfold rating_row.
    by rewrite module_pd, H1, H2, H3, H4, H5, H6, H7, H8, H9, H10.
  - intros l1 e1 l2 e2 l3 field -> H1 H2 Hexp.
    assert (Hlow : lower field = field).
    { revert Hexp. unfold expected_fields, rating_fields, ranking_fields.
      repeat case_bool_decide; intros Hexp; in_literal Hexp; reflexivity. }
    destruct (build_row _ _ _ _) as [r|e] eqn:Hb; [exfalso|by exists e].
    destruct (build_row_ok_reads _ _ _ _ _ field Hb Hexp) as [v Hv].
    apply case_variant_lower in H1, H2. rewrite Hlow in H1, H2.
    rewrite (item_duplicate _ field (arrange l1) (arrange l2) (arrange l3)
               (value e1) (value e2)) in Hv; [done|].
    by rewrite arrange_app, arrange_cons, arrange_app, arrange_cons, H1, H2.
Qed.

Lemma C9_case_insensitive_witness :
  same_up_to_case upper_record lower_record ∧
  "sar" ∈ ranking_algorithms ∧
  recorded upper_record "map" (PyFloat (1 # 10)) ∧
  recorded upper_record "ndcg" (PyFloat (2 # 10)) ∧
  recorded upper_record "precision" (PyFloat (3 # 10)) ∧
  recorded upper_record "recall" (PyFloat (4 # 10)) ∧
  recorded upper_record "train_time" (PyFloat (5 # 1)) ∧
  recorded upper_record "test_time" (PyFloat (6 # 1)) ∧
  build_row 10 "100k" "sar" (arrange upper_record) =
    Ok [ ("Data", PyStr "100k"); ("Algo", PyStr "sar"); ("K", PyInt 10);
         ("MAP", PyFloat (1 # 10)); ("nDCG@k", PyFloat (2 # 10));
         ("Precision@k", PyFloat (3 # 10)); ("Recall@k", PyFloat (4 # 10));
         ("RMSE", np_nan); ("MAE", np_nan); ("R2", np_nan);
         ("Explained Variance", np_nan);
         ("Train time", PyFloat (5 # 1)); ("Test time", PyFloat (6 # 1)) ] ∧
  build_row 10 "100k" "sar" (arrange upper_record) =
  build_row 10 "100k" "sar" (arrange lower_record).
Proof.
  assert (H : same_up_to_case upper_record lower_record).
  { unfold same_up_to_case, upper_record, lower_record.
    repeat (constructor; [split; [cbn|reflexivity]|]); [..|constructor];
      repeat first [apply cv_nil | apply cv_cons; [same_letter|]]. }
  assert (Hrec : ∀ field v, lower field = field →
                   item (arrange upper_record) field = Ok v →
                   recorded upper_record field v).
  { intros field v Hlow Hi. by apply item_arrange_recorded. }
  assert (H1 := Hrec "map" _ eq_refl eq_refl).
  assert (H2 := Hrec "ndcg" _ eq_refl eq_refl).
  assert (H3 := Hrec "precision" _ eq_refl eq_refl).
  assert (H4 := Hrec "recall" _ eq_refl eq_refl).
  assert (H5 := Hrec "train_time" _ eq_refl eq_refl).
  assert (H6 := Hrec "test_time" _ eq_refl eq_refl).
  assert (Hsar : "sar" ∈ ranking_algorithms) by compute_done.
  destruct (C9_case_insensitive 10 "100k" "sar" upper_record lower_record)
    as (Hsame & Hrank & _ & _).
  repeat (split; [assumption|]).
  split; [exact (Hrank Hsar _ _ _ _ _ _ H1 H2 H3 H4 H5 H6) | exact (Hsame H)].
Defined.

(** ** Errors during the sweep *)

(** The state in which a run raises, when it raises after the execution. *)
Lemma iteration_raise_after_execution E cfg data_size algorithm st path nb e :
  notebooks cfg !! algorithm = Some path →
  run_notebook E (executed st) path (k cfg) data_size = Executed nb →
  build_row (k cfg) data_size algorithm (arrange nb) = Raise e →
  ∃ st', iteration E cfg data_size algorithm st = (Raise e, st') ∧
         df_results st' = df_results st ∧
         output_ipynb st' = Some nb ∧
         executed st' = executed st ++ [(path, k cfg, data_size)].
Proof.
  intros Hnb Hrun Hb. rewrite iteration_eq. cbn zeta.
  rewrite Hnb, Hrun, Hb. eexists. split; [done|].
  unfold execute_notebook. cbn. by rewrite Hrun.
Qed.

(** C8. If the record of an executed notebook lacks one of the names the
    sweep reads for that algorithm (map, ndcg, precision, recall,
    train_time, test_time, and for als, svd and fast also rmse, mae,
    rsquared, exp_var), then the sweep raises while the row is being built
    (a KeyError for a missing name, or the error of an earlier read), and
    the table is left as it was before that run: no row for it is
    appended. *)
Theorem C8_missing_field (E : env) (cfg : config) (st : state)
    (before : list (string * string)) (data_size algorithm : string)
    (after : list (string * string)) (st1 : state)
    (path : string) (nb : dataframe) (field : string) :
  list_prod (data_sizes cfg) (algorithms cfg) =
    before ++ (data_size, algorithm) :: after →
  runs E cfg before (new_results st).2 = (Ok tt, st1) →
  notebooks cfg !! algorithm = Some path →
  run_notebook E (executed st1) path (k cfg) data_size = Executed nb →
  field ∈ expected_fields algorithm →
  field ∉ (arrange nb).*1 →
  ∃ e st',
    cell_sweep E cfg st = (Raise e, st') ∧
    build_row (k cfg) data_size algorithm (arrange nb) = Raise e ∧
    ((∃ f, e = KeyError f ∧ f ∈ expected_fields algorithm ∧
           f ∉ (arrange nb).*1)
     ∨ e = AttributeError "item") ∧
    df_results st' = df_results st1 ∧
    row_key <$> df_results st' = pair_key <$> before.
Proof.
  intros Hpairs Hbefore Hnb Hrun Hexp Hmiss.
  destruct (build_row_missing (k cfg) data_size algorithm (arrange nb) field)
    as (e & Hb & He); [done..|].
  destruct (iteration_raise_after_execution E cfg data_size algorithm st1
              path nb e) as (st' & Hit & Hdf & _ & _); [done..|].
  exists e, st'. rewrite cell_sweep_eq, Hpairs.
  split; [by apply (runs_reach E cfg before (data_size, algorithm) after _ st1)|].
  split; [done|]. split; [done|]. split; [done|].
  rewrite Hdf. rewrite new_results_eq in Hbefore. cbn in Hbefore.
  apply runs_ok_inv in Hbefore as (_ & rows & -> & Hkeys). done.
Qed.

Lemma C8_missing_field_witness :
  ∃ e st',
    cell_sweep env_upper configured initial = (Raise e, st') ∧
    build_row 10 "100k" "als" (arrange upper_record) = Raise e ∧
    ((∃ f, e = KeyError f ∧ f ∈ expected_fields "als" ∧
           f ∉ (arrange upper_record).*1)
     ∨ e = AttributeError "item") ∧
    df_results st' = df_results (new_results initial).2 ∧
    row_key <$> df_results st' = pair_key <$> [].
Proof.
  apply (C8_missing_field env_upper configured initial [] "100k" "als"
           (tail (list_prod (data_sizes configured) (algorithms configured)))
           (new_results initial).2
           "../00_quick_start/als_movielens.ipynb" upper_record "rmse");
    [reflexivity | reflexivity | reflexivity | reflexivity
    | compute_done | compute_done].
Defined.

Lemma iteration_unmapped E cfg data_size algorithm st :
  notebooks cfg !! algorithm = None →
  iteration E cfg data_size algorithm st =
  (Raise (KeyError algorithm), (print algorithm data_size st).2).
Proof. intros Hnb. rewrite iteration_eq. cbn zeta. by rewrite Hnb. Qed.

(** C4, as stated, fails for an identifier that has a notebook but is in
    neither family: the notebook is executed before the dispatch, so the
    error is not raised on reaching the identifier, and when the execution
    fails the error is the execution error, not a configuration error. *)
Lemma C4_immediate_error_counterexample :
  ("knn" ∉ rating_algorithms) ∧ ("knn" ∉ ranking_algorithms) ∧
  (∃ st', cell_sweep env_failing cfg_knn initial =
            (Raise PapermillExecutionError, st') ∧
          executed st' = [("knn.ipynb", 10, "100k")]) ∧
  (∃ st', cell_sweep env_ok cfg_knn initial =
            (Raise (ValueError "knn is not a recognized algorithm"), st') ∧
          executed st' = [("knn.ipynb", 10, "100k")] ∧
          executed st' ≠ executed initial).
Proof.
  split; [compute_done|]. split; [compute_done|]. split.
  - eexists. split; [vm_compute; reflexivity|reflexivity].
  - eexists. split; [vm_compute; reflexivity|]. split; [reflexivity|done].
Qed.

(** C4, amended. When the sweep reaches an identifier that is absent from
    the notebook mapping, it raises a KeyError for it at once: no notebook
    is executed for it and no row is appended. When it reaches an identifier
    that has a notebook but is in neither family list, the notebook is
    executed first; the sweep then raises the 'not a recognized algorithm'
    ValueError if the execution succeeded and the execution error if it
    failed, and in both cases no row for the identifier is appended. *)
Theorem C4_unrecognized_algorithm (E : env) (cfg : config) (st : state)
    (before : list (string * string)) (data_size algorithm : string)
    (after : list (string * string)) (st1 : state) :
  list_prod (data_sizes cfg) (algorithms cfg) =
    before ++ (data_size, algorithm) :: after →
  runs E cfg before (new_results st).2 = (Ok tt, st1) →
  (notebooks cfg !! algorithm = None →
   ∃ st', cell_sweep E cfg st = (Raise (KeyError algorithm), st') ∧
          executed st' = executed st1 ∧
          output_ipynb st' = output_ipynb st1 ∧
          df_results st' = df_results st1) ∧
  (∀ path, notebooks cfg !! algorithm = Some path →
           algorithm ∉ rating_algorithms → algorithm ∉ ranking_algorithms →
   ∃ e st', cell_sweep E cfg st = (Raise e, st') ∧
            executed st' = executed st1 ++ [(path, k cfg, data_size)] ∧
            df_results st' = df_results st1 ∧
            e = match run_notebook E (executed st1) path (k cfg) data_size with
                | Executed _ => ValueError (not_recognized algorithm)
                | ExecFailed _ => PapermillExecutionError
                end).
Proof.
  intros Hpairs Hbefore. rewrite cell_sweep_eq, Hpairs. split.
  - intros Hnb. eexists. split.
    + apply (runs_reach E cfg before (data_size, algorithm) after _ st1);
        [done|]. by apply iteration_unmapped.
    + done.
  - intros path Hnb H1 H2.
    destruct (run_notebook E (executed st1) path (k cfg) data_size)
      as [nb|out] eqn:Hrun.
    + destruct (iteration_raise_after_execution E cfg data_size algorithm st1
                  path nb (ValueError (not_recognized algorithm)))
        as (st' & Hit & Hdf & _ & Hex); [done|done| |].
      { by apply build_row_unrecognized. }
      exists (ValueError (not_recognized algorithm)), st'.
      split; [|done].
      by apply (runs_reach E cfg before (data_size, algorithm) after _ st1).
    + eexists _, _. split.
      * apply (runs_reach E cfg before (data_size, algorithm) after _ st1);
          [done|]. cbn [fst snd]. rewrite iteration_eq. cbn zeta.
        by rewrite Hnb, Hrun.
      * unfold execute_notebook. cbn. by rewrite Hrun.
Qed.

Lemma C4_unrecognized_algorithm_witness :
  (∃ st', cell_sweep env_ok cfg_unmapped initial = (Raise (KeyError "knn"), st') ∧
          executed st' = executed (new_results initial).2 ∧
          output_ipynb st' = output_ipynb (new_results initial).2 ∧
          df_results st' = df_results (new_results initial).2) ∧
  (∃ e st', cell_sweep env_ok cfg_knn initial = (Raise e, st') ∧
            executed st' =
              executed (new_results initial).2 ++ [("knn.ipynb", 10, "100k")] ∧
            df_results st' = df_results (new_results initial).2 ∧
            e = match run_notebook env_ok (executed (new_results initial).2)
                        "knn.ipynb" 10 "100k" with
                | Executed _ => ValueError (not_recognized "knn")
                | ExecFailed _ => PapermillExecutionError
                end).
Proof.
  split.
  - apply (C4_unrecognized_algorithm env_ok cfg_unmapped initial [] "100k" "knn"
             [] (new_results initial).2); reflexivity.
  - apply (proj2 (C4_unrecognized_algorithm env_ok cfg_knn initial [] "100k"
                    "knn" [] (new_results initial).2 eq_refl eq_refl)
             "knn.ipynb");
      [reflexivity | compute_done | compute_done].
Defined.

(** C10. In the configured sweep the branch that raises the 'not a
    recognized algorithm' ValueError is never taken: every configured
    algorithm is in one of the two family lists (and has a notebook), so no
    run of the configured sweep ends in a ValueError, and for a configured
    algorithm the construction of the row never raises the 'not a recognized
    algorithm' ValueError, whatever the frame it reads; and with any
    configuration, an identifier absent from the notebook mapping makes the
    run raise a KeyError at the lookup, before any notebook is executed and
    before the dispatch on the family. *)
Theorem C10_value_error_unreachable :
  (∀ a, a ∈ algorithms configured →
        a ∈ rating_algorithms ∨ a ∈ ranking_algorithms) ∧
  (∀ a, a ∈ algorithms configured → is_Some (notebooks configured !! a)) ∧
  (∀ E st msg st',
     cell_sweep E configured st ≠ (Raise (ValueError msg), st')) ∧
  (∀ top_k data_size a df,
     a ∈ algorithms configured →
     build_row top_k data_size a df ≠ Raise (ValueError (not_recognized a))) ∧
  (∀ E cfg data_size algorithm st,
     notebooks cfg !! algorithm = None →
     iteration E cfg data_size algorithm st =
       (Raise (KeyError algorithm), (print algorithm data_size st).2) ∧
     executed (print algorithm data_size st).2 = executed st ∧
     df_results (print algorithm data_size st).2 = df_results st).
Proof.
  assert (Hfam : ∀ a, a ∈ algorithms configured →
                      a ∈ rating_algorithms ∨ a ∈ ranking_algorithms).
  { intros a Ha. cbn in Ha. in_literal Ha; [left|right|left|left|right|right];
      compute_done. }
  split; [done|]. split.
  { intros a Ha. cbn in Ha. in_literal Ha; by eexists. }
  split.
  - intros E st msg st'. rewrite cell_sweep_eq.
    intros (before & [d a] & after & st1 & Hpairs & _ & Hit)%runs_raise_inv.
    assert (Ha : a ∈ algorithms configured).
    { assert (Hin : In (d, a) (list_prod (data_sizes configured)
                                         (algorithms configured))).
      { rewrite Hpairs. apply in_elt. }
      apply in_prod_iff in Hin as [_ Hin]. by apply list_elem_of_In. }
    revert Hit. rewrite iteration_eq. cbn zeta. cbn [fst snd].
    destruct (notebooks configured !! a) as [path|]; [|done].
    destruct (run_notebook E _ path _ d) as [nb|]; [|done].
    destruct (build_row _ d a (arrange nb)) as [r|e] eqn:Hb; [done|].
    intros [= -> _].
    apply build_row_raise in Hb as [(f & _ & Hi)|(_ & H1 & H2)].
    + by apply item_raise in Hi as [[? _]|?].
    + by destruct (Hfam a Ha).
  - split.
    + intros top_k data_size a df Ha Hb.
      apply build_row_raise in Hb as [(f & _ & Hi)|(_ & H1 & H2)].
      * by apply item_raise in Hi as [[? _]|?].
      * by destruct (Hfam a Ha).
    + intros E cfg data_size algorithm st Hnb.
      by rewrite iteration_unmapped.
Qed.

Lemma C10_value_error_unreachable_witness :
  notebooks cfg_unmapped !! "knn" = None ∧
  iteration env_ok cfg_unmapped "100k" "knn" initial =
    (Raise (KeyError "knn"), (print "knn" "100k" initial).2).
Proof.
  split; [reflexivity|].
  apply (proj2 (proj2 (proj2 (proj2 C10_value_error_unreachable)))
           env_ok cfg_unmapped "100k" "knn" initial).
  reflexivity.
Defined.

(** ** The scratch directory *)

Lemma cell_tempdir_eq st :
  cell_tempdir st =
  (Ok tt, {| temp_exists := true; output_ipynb := None;
             df_results := df_results st; stdout := stdout st;
             executed := executed st |}).
Proof. reflexivity. Qed.

(** The sweep neither creates nor removes the directory. *)
Lemma cell_sweep_temp_exists E cfg st res st' :
  cell_sweep E cfg st = (res, st') → temp_exists st' = temp_exists st.
Proof.
  rewrite cell_sweep_eq, new_results_eq. cbn. destruct res as [[]|e].
  - by intros [-> _]%runs_ok_inv.
  - intros (before & p & after & st1 & _ & [Hb _]%runs_ok_inv & Hit)%runs_raise_inv.
    apply iteration_inv in Hit as [-> _]. by rewrite Hb.
Qed.

(** The clean-up cell, by cases on the directory and on the fault. *)
Lemma cell_cleanup_removes E st :
  temp_exists st = true → rmtree_fault E = None →
  cell_cleanup E st =
  (Ok tt, {| temp_exists := false; output_ipynb := None;
             df_results := df_results st; stdout := stdout st;
             executed := executed st |}).
Proof.
  intros Ht Hf. unfold cell_cleanup, try_except, rmtree, bind, lift.
  rewrite module_shutil. cbn. by rewrite Ht, Hf.
Qed.

Lemma cell_cleanup_absent E st :
  temp_exists st = false →
  cell_cleanup E st = (Raise (NameError "errno"), st).
Proof.
  intros Ht. unfold cell_cleanup, try_except, rmtree, bind, lift.
  rewrite module_shutil. cbn. rewrite Ht. by rewrite module_errno.
Qed.

Lemma cell_cleanup_fault E st e :
  temp_exists st = true → rmtree_fault E = Some e →
  cell_cleanup E st =
  (Raise match e with OSError _ => NameError "errno" | _ => e end, st).
Proof.
  intros Ht Hf. unfold cell_cleanup, try_except, rmtree, bind, lift.
  rewrite module_shutil. cbn. rewrite Ht, Hf.
  by destruct e.
Qed.

(** C2. The clean-up cell does not tolerate an absent directory: the handler
    compares the error number with errno.ENOENT, but no cell imports errno,
    so the handler itself raises a NameError. Here the notebook has run to
    the end, the directory is gone, and the clean-up cell is run once more. *)
Theorem C2_cleanup_absent_directory :
  ∃ st, comparison env_ok configured initial = (Ok tt, st) ∧
        temp_exists st = false ∧
        ("errno" ∉ imported) ∧
        cell_cleanup env_ok st = (Raise (NameError "errno"), st).
Proof.
  eexists. split; [vm_compute; reflexivity|]. split; [reflexivity|].
  split; [compute_done|]. vm_compute; reflexivity.
Qed.

(** C3, as stated, fails when a run raises: the cells after the sweep are
    not executed, and the directory made before the sweep is still there. *)
Lemma C3_scratch_directory_counterexample :
  ∃ st, comparison env_failing configured initial =
          (Raise PapermillExecutionError, st) ∧
        temp_exists st = true.
Proof. eexists. split; [vm_compute; reflexivity|reflexivity]. Qed.

(** C3, amended. When every run of the sweep succeeded and the removal of
    the directory itself succeeds, the notebook returns normally and the
    scratch directory created before the sweep no longer exists. When a
    notebook execution or a row construction raises, the notebook stops at
    the sweep cell, the clean-up cell is not executed, and the directory
    still exists. *)
Theorem C3_scratch_directory (E : env) (cfg : config) (st : state) :
  (∀ st2, cell_sweep E cfg (cell_tempdir st).2 = (Ok tt, st2) →
          rmtree_fault E = None →
          ∃ st3, comparison E cfg st = (Ok tt, st3) ∧
                 temp_exists st3 = false ∧
                 df_results st3 = df_results st2) ∧
  (∀ e st2, cell_sweep E cfg (cell_tempdir st).2 = (Raise e, st2) →
            comparison E cfg st = (Raise e, st2) ∧
            temp_exists st2 = true).
Proof.
  split.
  - intros st2 Hsweep Hfault.
    pose proof (cell_sweep_temp_exists _ _ _ _ _ Hsweep) as Ht.
    rewrite cell_tempdir_eq in Ht, Hsweep. cbn in Ht, Hsweep.
    unfold comparison, run_all. cbn [for_each]. unfold bind at 1.
    rewrite cell_tempdir_eq. unfold bind at 1. rewrite Hsweep.
    unfold bind at 1. rewrite (cell_cleanup_removes E st2 Ht Hfault).
    by eexists.
  - intros e st2 Hsweep.
    pose proof (cell_sweep_temp_exists _ _ _ _ _ Hsweep) as Ht.
    rewrite cell_tempdir_eq in Ht, Hsweep. cbn in Ht, Hsweep.
    split; [|done].
    unfold comparison, run_all. cbn [for_each]. unfold bind at 1.
    rewrite cell_tempdir_eq. unfold bind at 1. by rewrite Hsweep.
Qed.

Lemma C3_scratch_directory_witness :
  (∃ st3, comparison env_ok configured initial = (Ok tt, st3) ∧
          temp_exists st3 = false ∧
          df_results st3 =
            df_results (cell_sweep env_ok configured (cell_tempdir initial).2).2) ∧
  (comparison env_failing configured initial =
     (Raise PapermillExecutionError,
      (cell_sweep env_failing configured (cell_tempdir initial).2).2) ∧
   temp_exists (cell_sweep env_failing configured (cell_tempdir initial).2).2
     = true).
Proof.
  split.
  - apply (proj1 (C3_scratch_directory env_ok configured initial)
             (cell_sweep env_ok configured (cell_tempdir initial).2).2);
      [vm_compute; reflexivity | reflexivity].
  - apply (proj2 (C3_scratch_directory env_failing configured initial)
             PapermillExecutionError
             (cell_sweep env_failing configured (cell_tempdir initial).2).2).
    vm_compute; reflexivity.
Defined.

(** * Further properties *)

(** ** Reading a column, exactly *)

(** A read returns a value exactly when one column, and only one, carries
    the label; the value is the cell of that column. *)
Theorem item_ok_iff (df : frame) (col : string) (v : pyval) :
  item df col = Ok v ↔
  ∃ l1 l2, df = l1 ++ (col, v) :: l2 ∧ (col ∉ l1.*1) ∧ (col ∉ l2.*1).
Proof.
  split.
  - unfold item.
    destruct (filter _ df) as [|c [|c' more]] eqn:Hf; [done| |done].
    intros [= <-]. apply filter_label_singleton in Hf
      as (l1 & l2 & -> & Hc & H1 & H2).
    exists l1, l2. split; [|done]. destruct c as [l w]. cbn in *. by subst.
  - intros (l1 & l2 & -> & H1 & H2). unfold item.
    rewrite filter_app, filter_cons_True by done.
    by rewrite (filter_label_nil l1), (filter_label_nil l2).
Qed.

Lemma item_ok_iff_witness :
  item (arrange lower_record) "recall" = Ok (PyFloat (4 # 10)).
Proof.
  apply (item_ok_iff (arrange lower_record) "recall").
  exists (arrange (take 3 lower_record)), (arrange (drop 4 lower_record)).
  split; [reflexivity|]. split; compute_done.
Defined.

(** ** Building a row, exactly *)

(** For a record of scalar values, a row is built exactly when the
    algorithm is in one of the two families and every name its family reads
    is carried by one column and only one. *)
Theorem build_row_ok_iff (top_k : Z) (data_size algorithm : string)
    (df : frame) :
  (∃ r, build_row top_k data_size algorithm df = Ok r) ↔
  (algorithm ∈ rating_algorithms ∨ algorithm ∈ ranking_algorithms) ∧
  ∀ field, field ∈ expected_fields algorithm → ∃ v, item df field = Ok v.
Proof.
  split.
  - intros [r Hb]. split.
    + revert Hb. unfold build_row. repeat case_bool_decide; auto. done.
    + intros field. by apply (build_row_ok_reads top_k data_size algorithm df r).
  - intros [Hfam Hall].
    destruct (build_row top_k data_size algorithm df) as [r|e] eqn:Hb;
      [by exists r|].
    apply build_row_raise in Hb as [(f & Hf & Hi)|(_ & H1 & H2)].
    + destruct (Hall f Hf) as [v Hv]. congruence.
    + by destruct Hfam.
Qed.

Lemma build_row_ok_iff_witness :
  ∃ r, build_row 10 "1m" "ncf" (arrange upper_record) = Ok r.
Proof.
  apply (build_row_ok_iff 10 "1m" "ncf" (arrange upper_record)). split.
  - right. compute_done.
  - intros field Hexp. vm_compute in Hexp.
    in_literal Hexp; eexists; vm_compute; reflexivity.
Defined.

(** The row depends only on the names that the family of the algorithm
    reads: two frames that answer these reads alike give the same row or the
    same error. In particular what a notebook records under rmse, mae,
    rsquared or exp_var has no effect on the row of sar, rbm or ncf. *)
Theorem build_row_reads_only_expected (top_k : Z)
    (data_size algorithm : string) (df df' : frame) :
  (∀ field, field ∈ expected_fields algorithm →
            item df field = item df' field) →
  build_row top_k data_size algorithm df =
  build_row top_k data_size algorithm df'.
Proof.
  unfold expected_fields, build_row.
  repeat case_bool_decide; [| |done]; intros Hsame.
  - unfold rating_row.
    rewrite !Hsame by (unfold rating_fields; solve [repeat constructor]).
    done.
  - unfold ranking_row.
    rewrite !Hsame by (unfold ranking_fields; solve [repeat constructor]).
    done.
Qed.

Lemma build_row_reads_only_expected_witness :
  build_row 10 "100k" "sar" (arrange (full_record 10 "100k")) =
  build_row 10 "100k" "sar"
    (arrange (filter (λ e, name e ∉ ["rmse"; "mae"; "rsquared"; "exp_var"])
                     (full_record 10 "100k"))).
Proof.
  apply (build_row_reads_only_expected 10 "100k" "sar").
  intros field Hexp. vm_compute in Hexp.
  in_literal Hexp; vm_compute; reflexivity.
Defined.

(** ** Lower-casing the names *)

Lemma lower_ascii_only s : ascii_only s = true → ascii_only (lower s) = true.
Proof.
  induction s as [|c s IH]; [done|]. cbn.
  intros [Hc Hs]%andb_true_iff. rewrite (IH Hs), andb_true_r.
  revert Hc. by destruct c as [[] [] [] [] [] [] [] []].
Qed.

(** On ASCII names, lower-casing identifies two names exactly when they
    differ only in letter case; it is idempotent, so names already in lower
    case are unchanged, and it keeps a name ASCII. *)
Theorem lower_eq_iff_case_variant (s t : string) :
  ascii_only s = true → ascii_only t = true →
  (lower s = lower t ↔ case_variant s t) ∧
  lower (lower s) = lower s ∧
  ascii_only (lower s) = true.
Proof.
  intros Hs Ht. split; [split|split].
  - apply lower_case_variant.
  - apply case_variant_lower.
  - apply lower_idemp.
  - by apply lower_ascii_only.
Qed.

Lemma lower_eq_iff_case_variant_witness :
  ascii_only "Train_Time" = true ∧ ascii_only "train_time" = true ∧
  case_variant "Train_Time" "train_time" ∧
  lower (lower "Train_Time") = lower "Train_Time".
Proof.
  split; [reflexivity|]. split; [reflexivity|].
  destruct (lower_eq_iff_case_variant "Train_Time" "train_time" eq_refl eq_refl)
    as (Hiff & Hidem & _).
  split; [apply Hiff; reflexivity | exact Hidem].
Defined.

(** For a record whose names are ASCII: after the names have been
    arranged, a column labelled with a lower-case ASCII name exists exactly
    when the notebook recorded something under a name that differs from it
    only in letter case; a label with a capital letter is never found. *)
Theorem arrange_label_iff (nb : dataframe) (field : string) :
  Forall (λ e, ascii_only (name e) = true) nb →
  ascii_only field = true →
  (lower field = field →
   field ∈ (arrange nb).*1 ↔ ∃ e, e ∈ nb ∧ case_variant (name e) field) ∧
  (lower field ≠ field → item (arrange nb) field = Raise (KeyError field)) ∧
  Forall (λ label, ascii_only label = true) (arrange nb).*1.
Proof.
  intros Hnames _.
  assert (Hin : field ∈ (arrange nb).*1 ↔ ∃ e, e ∈ nb ∧ lower (name e) = field).
  { rewrite arrange_eq, <- list_fmap_compose, list_elem_of_fmap. cbn.
    split; intros (e & H1 & H2); exists e; by split. }
  split; [|split].
  - intros Hlow. rewrite Hin. split; intros (e & He & Hn); exists e;
      (split; [done|]).
    + apply lower_case_variant. by rewrite Hlow.
    + apply case_variant_lower in Hn. by rewrite Hn.
  - intros Hne. apply item_missing. rewrite Hin. intros (e & _ & <-).
    apply Hne. apply lower_idemp.
  - rewrite arrange_eq, <- list_fmap_compose. apply Forall_fmap.
    eapply Forall_impl; [exact Hnames|]. intros e He. cbn.
    by apply lower_ascii_only.
Qed.

Lemma arrange_label_iff_witness :
  Forall (λ e, ascii_only (name e) = true) upper_record ∧
  ascii_only "precision" = true ∧ ascii_only "Precision" = true ∧
  lower "precision" = "precision" ∧
  "precision" ∈ (arrange upper_record).*1 ∧
  lower "Precision" ≠ "Precision" ∧
  item (arrange upper_record) "Precision" = Raise (KeyError "Precision").
Proof.
  assert (Hnames : Forall (λ e, ascii_only (name e) = true) upper_record)
    by (repeat constructor).
  split; [exact Hnames|]. split; [reflexivity|]. split; [reflexivity|].
  split; [reflexivity|]. split.
  - apply (proj1 (arrange_label_iff upper_record "precision" Hnames eq_refl)
             eq_refl).
    exists (rec "Precision" (PyFloat (3 # 10))).
    split; [solve [repeat constructor]|]. same_name.
  - split; [compute_done|].
    apply (proj1 (proj2 (arrange_label_iff upper_record "Precision" Hnames
                           eq_refl))).
    compute_done.
Defined.

(** Two recorded names that differ only in letter case clash: when a
    notebook records a name that the family of the algorithm reads twice up
    to letter case (MAP and map, say), no row can be built from its record. *)
Theorem clashing_names_fail (top_k : Z) (data_size algorithm : string)
    (nb l1 : dataframe) (e1 : nb_entry) (l2 : dataframe) (e2 : nb_entry)
    (l3 : dataframe) (field : string) :
  nb = l1 ++ e1 :: l2 ++ e2 :: l3 →
  case_variant (name e1) field → case_variant (name e2) field →
  lower field = field →
  field ∈ expected_fields algorithm →
  ∃ e, build_row top_k data_size algorithm (arrange nb) = Raise e.
Proof.
  intros -> H1 H2 Hlow Hexp.
  destruct (build_row _ _ _ _) as [r|e] eqn:Hb; [exfalso|by exists e].
  destruct (build_row_ok_reads _ _ _ _ _ field Hb Hexp) as [v Hv].
  apply case_variant_lower in H1, H2. rewrite Hlow in H1, H2.
  rewrite (item_duplicate _ field (arrange l1) (arrange l2) (arrange l3)
             (value e1) (value e2)) in Hv; [done|].
  by rewrite arrange_app, arrange_cons, arrange_app, arrange_cons, H1, H2.
Qed.

Lemma clashing_names_fail_witness :
  ∃ e, build_row 10 "100k" "sar" (arrange clashing_record) = Raise e.
Proof.
  apply (clashing_names_fail 10 "100k" "sar" clashing_record []
           (rec "MAP" (PyFloat (9 # 10))) []
           (rec "map" (PyFloat (1 # 10))) (drop 1 lower_record) "map");
    [reflexivity | | | reflexivity | compute_done];
    repeat first [apply cv_nil | apply cv_cons; [same_letter|]].
Defined.

(** ** The trace of the sweep *)

(** What one run adds to the output and to the list of executed notebooks,
    whatever its outcome. *)
Lemma iteration_trace E cfg data_size algorithm st res st' :
  iteration E cfg data_size algorithm st = (res, st') →
  stdout st' = stdout st ++ [(algorithm, data_size)] ∧
  match notebooks cfg !! algorithm with
  | None => executed st' = executed st
  | Some path => executed st' = executed st ++ [(path, k cfg, data_size)]
  end.
Proof.
  rewrite iteration_eq. cbn zeta.
  destruct (notebooks cfg !! algorithm) as [path|]; [|by intros [= <- <-]].
  unfold execute_notebook. cbn.
  destruct (run_notebook E (executed st) path (k cfg) data_size) as [nb|out];
    [|by intros [= <- <-]].
  by destruct (build_row _ _ _ _); intros [= <- <-].
Qed.

Lemma runs_ok_trace E cfg pairs st st' :
  runs E cfg pairs st = (Ok tt, st') →
  stdout st' = stdout st ++ (printed <$> pairs) ∧
  ∃ log, executed st' = executed st ++ log ∧ Forall2 (call_for cfg) pairs log.
Proof.
  revert st. induction pairs as [|p pairs IH]; intros st.
  - intros [= <-]. rewrite app_nil_r. split; [done|]. exists [].
    by rewrite app_nil_r.
  - rewrite runs_cons.
    destruct (iteration E cfg p.1 p.2 st) as [[[]|e] st1] eqn:Hit; [|done].
    intros Hrest. pose proof Hit as Hok.
    apply iteration_trace in Hit as [Hout Hex].
    apply iteration_ok_inv in Hok as (path & _ & _ & Hnb & _).
    rewrite Hnb in Hex.
    apply IH in Hrest as [Hout' (log & Hlog & Hcalls)]. split.
    + rewrite Hout', Hout, <- app_assoc. done.
    + exists ((path, k cfg, p.1) :: log). split.
      * rewrite Hlog, Hex, <- app_assoc. done.
      * by constructor.
Qed.

(** The progress lines. The sweep prints one line, algorithm then data
    size, when the run of a pair starts. After a sweep that returned normally
    the lines are those of all the pairs in sweep order; after a sweep that
    raised, the last line names the pair whose run raised, the lines before
    it are those of the runs that completed, and the table holds the rows of
    exactly these completed runs. *)
Theorem sweep_progress_lines (E : env) (cfg : config) (st : state)
    (res : result unit) (st' : state) :
  cell_sweep E cfg st = (res, st') →
  match res with
  | Ok _ =>
      stdout st' =
        stdout st ++ (printed <$> list_prod (data_sizes cfg) (algorithms cfg))
  | Raise _ =>
      ∃ before p after,
        list_prod (data_sizes cfg) (algorithms cfg) = before ++ p :: after ∧
        stdout st' = stdout st ++ (printed <$> before) ++ [printed p] ∧
        row_key <$> df_results st' = pair_key <$> before
  end.
Proof.
  rewrite cell_sweep_eq, new_results_eq. cbn. destruct res as [[]|e].
  - by intros [Hout _]%runs_ok_trace.
  - intros (before & p & after & st1 & Hp & Hb & Hit)%runs_raise_inv.
    exists before, p, after. split; [done|].
    pose proof Hb as [Hout _]%runs_ok_trace.
    pose proof Hb as (_ & rows & Hrows & Hkeys)%runs_ok_inv.
    pose proof Hit as [Hout' _]%iteration_trace.
    apply iteration_inv in Hit as [_ Hdf]. cbn in *.
    split; [by rewrite Hout', Hout, <- app_assoc|].
    by rewrite Hdf, Hrows.
Qed.

Lemma sweep_progress_lines_witness :
  ∃ before p after,
    list_prod (data_sizes configured) (algorithms configured) =
      before ++ p :: after ∧
    stdout (cell_sweep env_upper configured initial).2 =
      stdout initial ++ (printed <$> before) ++ [printed p] ∧
    row_key <$> df_results (cell_sweep env_upper configured initial).2 =
      pair_key <$> before.
Proof.
  apply (sweep_progress_lines env_upper configured initial
           (Raise (KeyError "rmse"))
           (cell_sweep env_upper configured initial).2).
  vm_compute; reflexivity.
Defined.

(** The notebooks that are executed. A sweep that returns normally has made
    one papermill call per pair, in sweep order, each for the notebook mapped
    to the algorithm with TOP_K = k and the data size of the pair. A sweep
    that raises stopped at the first pair whose run raised: the runs of the
    pairs before it completed and left their rows, the calls made are those
    of these completed runs and at most one more, for the pair whose run
    raised, and nothing was executed for the pairs after it. *)
Theorem sweep_calls (E : env) (cfg : config) (st : state)
    (res : result unit) (st' : state) :
  cell_sweep E cfg st = (res, st') →
  match res with
  | Ok _ =>
      ∃ log, executed st' = executed st ++ log ∧
             Forall2 (call_for cfg)
               (list_prod (data_sizes cfg) (algorithms cfg)) log
  | Raise e =>
      ∃ before p after st1 log,
        list_prod (data_sizes cfg) (algorithms cfg) = before ++ p :: after ∧
        runs E cfg before (new_results st).2 = (Ok tt, st1) ∧
        iteration E cfg p.1 p.2 st1 = (Raise e, st') ∧
        row_key <$> df_results st' = pair_key <$> before ∧
        executed st1 = executed st ++ log ∧
        Forall2 (call_for cfg) before log ∧
        (executed st' = executed st ++ log ∨
         ∃ c, call_for cfg p c ∧ executed st' = executed st ++ log ++ [c])
  end.
Proof.
  rewrite cell_sweep_eq. destruct res as [[]|e].
  - rewrite new_results_eq. cbn. by intros [_ Hlog]%runs_ok_trace.
  - intros (before & p & after & st1 & Hp & Hb & Hit)%runs_raise_inv.
    pose proof Hb as [_ (log & Hlog & Hcalls)]%runs_ok_trace.
    pose proof Hb as (_ & rows & Hrows & Hkeys)%runs_ok_inv.
    pose proof Hit as [_ Hex]%iteration_trace.
    pose proof Hit as [_ Hdf]%iteration_inv.
    rewrite new_results_eq in Hlog, Hrows. cbn in *.
    exists before, p, after, st1, log.
    split; [done|]. split; [done|]. split; [done|].
    split; [by rewrite Hdf, Hrows|]. split; [done|]. split; [done|].
    destruct (notebooks cfg !! p.2) as [path|] eqn:Hnb.
    + right. exists (path, k cfg, p.1). split; [done|].
      by rewrite Hex, Hlog, <- app_assoc.
    + left. by rewrite Hex, Hlog.
Qed.

Lemma sweep_calls_witness :
  (∃ log,
     executed (cell_sweep env_ok configured initial).2 =
       executed initial ++ log ∧
     Forall2 (call_for configured)
       (list_prod (data_sizes configured) (algorithms configured)) log) ∧
  (∃ before p after st1 log,
     list_prod (data_sizes configured) (algorithms configured) =
       before ++ p :: after ∧
     runs env_failing configured before (new_results initial).2 = (Ok tt, st1) ∧
     iteration env_failing configured p.1 p.2 st1 =
       (Raise PapermillExecutionError,
        (cell_sweep env_failing configured initial).2) ∧
     row_key <$> df_results (cell_sweep env_failing configured initial).2 =
       pair_key <$> before ∧
     executed st1 = executed initial ++ log ∧
     Forall2 (call_for configured) before log ∧
     (executed (cell_sweep env_failing configured initial).2 =
        executed initial ++ log ∨
      ∃ c, call_for configured p c ∧
           executed (cell_sweep env_failing configured initial).2 =
             executed initial ++ log ++ [c])).
Proof.
  split.
  - apply (sweep_calls env_ok configured initial (Ok tt)
             (cell_sweep env_ok configured initial).2).
    vm_compute; reflexivity.
  - apply (sweep_calls env_failing configured initial
             (Raise PapermillExecutionError)
             (cell_sweep env_failing configured initial).2).
    vm_compute; reflexivity.
Defined.

(** The output file is one slot that every run overwrites: after a sweep
    that returned normally it holds the record of the last run only, the
    notebook of the last pair executed after all the others. *)
Theorem sweep_keeps_last_record (E : env) (cfg : config) (st st' : state)
    (init : list (string * string)) (p : string * string) :
  list_prod (data_sizes cfg) (algorithms cfg) = init ++ [p] →
  cell_sweep E cfg st = (Ok tt, st') →
  ∃ log path nb,
    Forall2 (call_for cfg) init log ∧
    notebooks cfg !! p.2 = Some path ∧
    run_notebook E (executed st ++ log) path (k cfg) p.1 = Executed nb ∧
    output_ipynb st' = Some nb.
Proof.
  intros Hp. rewrite cell_sweep_eq, new_results_eq, Hp. cbn.
  unfold runs. rewrite for_each_app. fold (runs E cfg init).
  destruct (runs E cfg init _) as [[[]|e] st1] eqn:Hinit; [|done].
  cbn. unfold bind.
  destruct (iteration E cfg p.1 p.2 st1) as [[[]|e] st2] eqn:Hit; [|done].
  intros [= <-].
  apply runs_ok_trace in Hinit as [_ (log & Hlog & Hcalls)]. cbn in Hlog.
  apply iteration_ok_inv in Hit as (path & nb & r & Hnb & Hrun & _ & _ & Hout).
  exists log, path, nb. by rewrite <- Hlog.
Qed.

Lemma sweep_keeps_last_record_witness :
  ∃ log path nb,
    Forall2 (call_for configured)
      (take 11 (list_prod (data_sizes configured) (algorithms configured)))
      log ∧
    notebooks configured !! "rbm" = Some path ∧
    run_notebook env_ok (executed initial ++ log) path 10 "1m" = Executed nb ∧
    output_ipynb (cell_sweep env_ok configured initial).2 = Some nb.
Proof.
  apply (sweep_keeps_last_record env_ok configured initial
           (cell_sweep env_ok configured initial).2
           (take 11 (list_prod (data_sizes configured) (algorithms configured)))
           ("1m", "rbm"));
    vm_compute; reflexivity.
Defined.

(** ** The shape of the table *)

Lemma families_disjoint algorithm :
  algorithm ∈ rating_algorithms → algorithm ∉ ranking_algorithms.
Proof. intros H. unfold rating_algorithms in H. in_literal H; compute_done. Qed.

Lemma build_row_well_formed cfg data_size algorithm df r :
  data_size ∈ data_sizes cfg → algorithm ∈ algorithms cfg →
  build_row (k cfg) data_size algorithm df = Ok r →
  row_well_formed cfg r.
Proof.
  intros Hd Ha Hb.
  destruct (decide (algorithm ∈ rating_algorithms)) as [Hrat|Hnrat];
    [|destruct (decide (algorithm ∈ ranking_algorithms)) as [Hrank|Hnrank]].
  - rewrite build_row_rating in Hb by done.
    pose proof (rating_row_spec (k cfg) data_size algorithm df) as Hs.
    rewrite Hb in Hs.
    destruct Hs as (?&?&?&?&?&?&?&?&?&?&_&_&_&_&_&_&_&_&_&_&->).
    split; [done|]. split; [done|]. exists data_size, algorithm.
    repeat (split; [by auto|]). intros Hrank.
    by apply families_disjoint in Hrat.
  - rewrite build_row_ranking in Hb by done.
    pose proof (ranking_row_spec (k cfg) data_size algorithm df) as Hs.
    rewrite Hb in Hs.
    destruct Hs as (?&?&?&?&?&?&_&_&_&_&_&_&->).
    split; [done|]. split; [done|]. exists data_size, algorithm.
    repeat (split; [by auto|]). done.
  - by rewrite build_row_unrecognized in Hb.
Qed.

Lemma runs_rows_well_formed E cfg pairs st res st' :
  (∀ p, p ∈ pairs → p.1 ∈ data_sizes cfg ∧ p.2 ∈ algorithms cfg) →
  Forall (row_well_formed cfg) (df_results st) →
  runs E cfg pairs st = (res, st') →
  Forall (row_well_formed cfg) (df_results st').
Proof.
  revert st. induction pairs as [|p pairs IH]; intros st Hin Hwf.
  - by intros [= <- <-].
  - rewrite runs_cons.
    destruct (iteration E cfg p.1 p.2 st) as [[[]|e] st1] eqn:Hit.
    + apply iteration_ok_inv in Hit as (path & nb & r & _ & _ & Hb & Hdf & _).
      apply IH; [intros q Hq; apply Hin; by right|].
      rewrite Hdf. apply Forall_app. split; [done|]. constructor; [|done].
      destruct (Hin p) as [Hd Ha]; [left|].
      by apply (build_row_well_formed cfg p.1 p.2 (arrange nb)).
    + apply iteration_inv in Hit as [_ Hdf]. cbn in Hdf.
      intros [= <- <-]. by rewrite Hdf.
Qed.

(** Whatever the outcome of the sweep, every row of the table has the same
    thirteen columns in the same order, K equal to the configured k, a
    configured data size under Data and a configured algorithm of one of the
    two families under Algo; and when that algorithm is sar, rbm or ncf the
    four rating columns hold not-a-number. *)
Theorem sweep_rows_well_formed (E : env) (cfg : config) (st : state)
    (res : result unit) (st' : state) :
  cell_sweep E cfg st = (res, st') →
  Forall (row_well_formed cfg) (df_results st').
Proof.
  rewrite cell_sweep_eq, new_results_eq. cbn.
  apply runs_rows_well_formed; [|by constructor].
  intros [d a] Hin. apply list_elem_of_In, in_prod_iff in Hin as [Hd Ha].
  split; by apply list_elem_of_In.
Qed.

Lemma sweep_rows_well_formed_witness :
  Forall (row_well_formed configured)
    (df_results (cell_sweep env_ok configured initial).2).
Proof.
  apply (sweep_rows_well_formed env_ok configured initial (Ok tt)).
  vm_compute; reflexivity.
Defined.

(** ** The scratch directory and the clean-up, exactly *)

(** The sweep neither creates nor removes the scratch directory, whatever
    its outcome; in particular a sweep started after the directory was made
    always ends with the directory in place. *)
Theorem sweep_leaves_directory (E : env) (cfg : config) (st : state)
    (res : result unit) (st' : state) :
  cell_sweep E cfg st = (res, st') → temp_exists st' = temp_exists st.
Proof.
  rewrite cell_sweep_eq, new_results_eq. cbn. destruct res as [[]|e].
  - by intros [-> _]%runs_ok_inv.
  - intros (before & p & after & st1 & _ & [Hb _]%runs_ok_inv & Hit)%runs_raise_inv.
    apply iteration_inv in Hit as [-> _]. by rewrite Hb.
Qed.

Lemma sweep_leaves_directory_witness :
  temp_exists (cell_sweep env_failing configured (cell_tempdir initial).2).2 =
  temp_exists (cell_tempdir initial).2.
Proof.
  apply (sweep_leaves_directory env_failing configured (cell_tempdir initial).2
           (Raise PapermillExecutionError)).
  vm_compute; reflexivity.
Defined.

Lemma cell_cleanup_inv E st res st' :
  cell_cleanup E st = (res, st') →
  df_results st' = df_results st ∧
  stdout st' = stdout st ∧
  executed st' = executed st ∧
  match res with
  | Ok _ => temp_exists st = true ∧ rmtree_fault E = None ∧
            temp_exists st' = false ∧ output_ipynb st' = None
  | Raise _ => st' = st
  end.
Proof.
  destruct (temp_exists st) eqn:Ht.
  - destruct (rmtree_fault E) as [e|] eqn:Hf.
    + rewrite (cell_cleanup_fault E st e Ht Hf). by intros [= <- <-].
    + rewrite (cell_cleanup_removes E st Ht Hf). by intros [= <- <-].
  - rewrite (cell_cleanup_absent E st Ht). by intros [= <- <-].
Qed.

(** The clean-up cell never touches the table, the output printed or the
    list of executed notebooks. It returns normally only when the directory
    was there and its removal met no fault, and then the directory and the
    output file are gone; when it raises, the directory is as it was, still
    in place if it was there. *)
Theorem cleanup_outcome (E : env) (st : state) (res : result unit)
    (st' : state) :
  cell_cleanup E st = (res, st') →
  df_results st' = df_results st ∧
  stdout st' = stdout st ∧
  executed st' = executed st ∧
  match res with
  | Ok _ => temp_exists st = true ∧ rmtree_fault E = None ∧
            temp_exists st' = false ∧ output_ipynb st' = None
  | Raise _ => temp_exists st' = temp_exists st
  end.
Proof.
  intros (Hdf & Hout & Hex & Hres)%cell_cleanup_inv.
  repeat (split; [done|]). destruct res; [done|]. by rewrite Hres.
Qed.

Lemma cleanup_outcome_witness :
  df_results (cell_cleanup env_ok (cell_sweep env_ok configured
                                     (cell_tempdir initial).2).2).2 =
    df_results (cell_sweep env_ok configured (cell_tempdir initial).2).2 ∧
  temp_exists (cell_cleanup env_ok (cell_sweep env_ok configured
                                      (cell_tempdir initial).2).2).2 = false ∧
  temp_exists (cell_cleanup env_denied (cell_tempdir initial).2).2 =
    temp_exists (cell_tempdir initial).2.
Proof.
  destruct (cleanup_outcome env_ok
              (cell_sweep env_ok configured (cell_tempdir initial).2).2 (Ok tt)
              (cell_cleanup env_ok (cell_sweep env_ok configured
                                      (cell_tempdir initial).2).2).2)
    as (Hdf & _ & _ & _ & _ & Hgone & _); [vm_compute; reflexivity|].
  split; [exact Hdf|]. split; [exact Hgone|].
  apply (cleanup_outcome env_denied (cell_tempdir initial).2
           (Raise (NameError "errno"))).
  vm_compute; reflexivity.
Defined.




